(** * LLM code deployment endpoint: the request pipeline of [project.py]

    A shallow embedding of [handle_request] and [generate_app_from_brief].
    The handler is a straight line of I/O calls; the embedding keeps that
    line, records every externally visible call as an event of a trace, and
    reads the outcome of each call from an explicit [World].

    Scope of the model.  Text is ASCII: the case mapping, the white space
    and the digits of characters outside ASCII are not modelled.  The body
    of the request is taken after [request.json()], as a decoded JSON value
    or as the failure of the decoding; the integers of a decoded body are
    within the interpreter's limit on the digits of a converted integer, the
    decoder refusing longer literals.  Module imports are assumed to
    succeed. *)

From Stdlib Require Import ZArith String Ascii List Bool Lia DecimalString DecimalPos QArith.
Import ListNotations.

Local Open Scope Z_scope.
Local Open Scope string_scope.

(** ** Python strings *)

Module PyStr.

(** [s.replace(old, new)] for a one-character [old]. *)
Fixpoint replace (old : ascii) (new : string) (s : string) : string :=
  match s with
  | EmptyString => EmptyString
  | String c rest =>
      if Ascii.eqb c old then new ++ replace old new rest
      else String c (replace old new rest)
  end.

Definition is_upper (c : ascii) : bool :=
  let n := nat_of_ascii c in (Nat.leb 65 n && Nat.leb n 90)%bool.

Definition lower_char (c : ascii) : ascii :=
  if is_upper c then ascii_of_nat (nat_of_ascii c + 32) else c.

(** [s.lower()] *)
Fixpoint lower (s : string) : string :=
  match s with
  | EmptyString => EmptyString
  | String c rest => String (lower_char c) (lower rest)
  end.

(** White space of [str.strip()] in ASCII text: 0x09-0x0D, 0x1C-0x1F, 0x20. *)
Definition is_space (c : ascii) : bool :=
  let n := nat_of_ascii c in
  ((Nat.leb 9 n && Nat.leb n 13) || (Nat.leb 28 n && Nat.leb n 32))%bool.

(** Removal of the leading characters that satisfy [p]. *)
Fixpoint lstrip_by (p : ascii -> bool) (s : string) : string :=
  match s with
  | EmptyString => EmptyString
  | String c rest => if p c then lstrip_by p rest else s
  end.

Definition lstrip (s : string) : string := lstrip_by is_space s.

Fixpoint rev_onto (s acc : string) : string :=
  match s with
  | EmptyString => acc
  | String c rest => rev_onto rest (String c acc)
  end.

Definition rev (s : string) : string := rev_onto s EmptyString.

Definition rstrip_by (p : ascii -> bool) (s : string) : string :=
  rev (lstrip_by p (rev s)).

Definition strip_by (p : ascii -> bool) (s : string) : string :=
  rstrip_by p (lstrip_by p s).

Definition rstrip (s : string) : string := rstrip_by is_space s.

(** [s.strip()] *)
Definition strip (s : string) : string := strip_by is_space s.

(** [str(n)] for an integer. *)
Definition of_int (n : Z) : string := NilZero.string_of_int (Z.to_int n).

(** [c in s] for a one-character [c]. *)
Fixpoint contains (c : ascii) (s : string) : bool :=
  match s with
  | EmptyString => false
  | String d rest => (Ascii.eqb d c || contains c rest)%bool
  end.

Definition dquote : ascii := ascii_of_nat 34.

(** The NUL character, which no path and no argument of a process may
    hold. *)
Definition nul : ascii := ascii_of_nat 0.

Definition has_nul (s : string) : bool := contains nul s.

(** [html.escape(s)] with its default [quote=True]: five replacements in
    the library's order, the ampersand first. *)
Definition html_escape (s : string) : string :=
  let s := replace "&" "&amp;" s in
  let s := replace "<" "&lt;" s in
  let s := replace ">" "&gt;" s in
  let s := replace dquote "&quot;" s in
  let s := replace "'" "&#x27;" s in
  s.

(** [os.path.join(a, b)] of [posixpath]. *)
Definition path_join (a b : string) : string :=
  match b with
  | String "/" _ => b
  | _ =>
      match rev a with
      | EmptyString => b
      | String "/" _ => a ++ b
      | _ => a ++ "/" ++ b
      end
  end.

End PyStr.

(** ** Decoded JSON values and the Python operations applied to them *)

(** A float as far as the handler observes it: [int()] truncates a finite
    one and rejects the others, and zero is the only falsy one. *)
Inductive PyFloat : Type :=
| FFinite (q : Q)
| FInf (negative : bool)
| FNaN.

(** The value [request.json()] returns.  [JObj] is the decoded dict, read
    by its first binding of a key. *)
#[warnings="-register-all"]
Inductive JSON : Type :=
| JNull
| JBool (b : bool)
| JInt (n : Z)
| JFloat (f : PyFloat)
| JStr (s : string)
| JArr (items : list JSON)
| JObj (fields : list (string * JSON)).

(** The exceptions that can leave the handler.  [OSError] stands for the
    class and for its subclasses other than [FileNotFoundError]. *)
Inductive Exn : Type :=
| AttributeError
| TypeError
| ValueError
| OverflowError
| OSError
| FileNotFoundError
| CalledProcessError.

Inductive result (A : Type) : Type :=
| Ok (a : A)
| Raise (e : Exn).
Arguments Ok {A} a.
Arguments Raise {A} e.

Module Py.

Fixpoint assoc (k : string) (kvs : list (string * JSON)) : option JSON :=
  match kvs with
  | [] => None
  | (k', v) :: rest => if String.eqb k' k then Some v else assoc k rest
  end.

(** [data.get(key, default)]; only a dict has the method. *)
Definition get (data : JSON) (key : string) (default : JSON) : result JSON :=
  match data with
  | JObj kvs =>
      match assoc key kvs with
      | Some v => Ok v
      | None => Ok default
      end
  | _ => Raise AttributeError
  end.

(** [v == s] for a string [s]: only an equal string is equal to it. *)
Definition eq_str (v : JSON) (s : string) : bool :=
  match v with
  | JStr t => String.eqb t s
  | _ => false
  end.

(** Truth value of [if v:]. *)
Definition truthy (v : JSON) : bool :=
  match v with
  | JNull => false
  | JBool b => b
  | JInt n => negb (Z.eqb n 0)
  | JFloat (FFinite q) => negb (Z.eqb (Qnum q) 0)
  | JFloat _ => true
  | JStr s => negb (String.eqb s "")
  | JArr items => match items with [] => false | _ => true end
  | JObj kvs => match kvs with [] => false | _ => true end
  end.

(** [html.escape(v)]: the library calls [v.replace], which only a string
    has. *)
Definition escape (v : JSON) : result string :=
  match v with
  | JStr s => Ok (PyStr.html_escape s)
  | _ => Raise AttributeError
  end.

Definition digit_val (c : ascii) : option Z :=
  let n := nat_of_ascii c in
  if (Nat.leb 48 n && Nat.leb n 57)%bool then Some (Z.of_nat (n - 48)) else None.

(** Decimal digits, with single underscores allowed between two digits. *)
Fixpoint digits (s : string) (acc : Z) (after_digit : bool) : option Z :=
  match s with
  | EmptyString => if after_digit then Some acc else None
  | String c rest =>
      match digit_val c with
      | Some d => digits rest (10 * acc + d) true
      | None =>
          if (Ascii.eqb c "_" && after_digit)%bool then digits rest acc false
          else None
      end
  end.

(** The white space [int()] skips around the digits of an ASCII text:
    0x09-0x0D and the space, not the separators 0x1C-0x1F that [str.strip()]
    also removes. *)
Definition int_space (c : ascii) : bool :=
  let n := nat_of_ascii c in
  ((Nat.leb 9 n && Nat.leb n 13) || Nat.eqb n 32)%bool.

(** The number of digits of a text; the sign and the underscores do not
    count. *)
Fixpoint digit_count (s : string) : Z :=
  match s with
  | EmptyString => 0
  | String c rest =>
      match digit_val c with
      | Some _ => 1 + digit_count rest
      | None => digit_count rest
      end
  end.

(** The interpreter's default limit on the digits of a text that [int()]
    converts; a longer text is refused. *)
Definition max_str_digits : Z := 4300.

(** [int(s)] for a string: white space around, an optional sign, digits. *)
Definition int_of_string (s : string) : option Z :=
  let t := PyStr.strip_by int_space s in
  if Z.ltb max_str_digits (digit_count t) then None
  else match t with
       | String "+" rest => digits rest 0 false
       | String "-" rest => option_map Z.opp (digits rest 0 false)
       | _ => digits t 0 false
       end.

(** [int(v)] *)
Definition int (v : JSON) : result Z :=
  match v with
  | JNull => Raise TypeError
  | JBool b => Ok (if b then 1 else 0)
  | JInt n => Ok n
  | JFloat (FFinite q) => Ok (Z.quot (Qnum q) (Z.pos (Qden q)))
  | JFloat (FInf _) => Raise OverflowError
  | JFloat FNaN => Raise ValueError
  | JStr s =>
      match int_of_string s with
      | Some n => Ok n
      | None => Raise ValueError
      end
  | JArr _ => Raise TypeError
  | JObj _ => Raise TypeError
  end.

(** [json.dumps(v, allow_nan=False)] accepts the value: it holds no
    infinity and no NaN, at any depth. *)
Fixpoint serialisable (v : JSON) : bool :=
  match v with
  | JFloat (FFinite _) => true
  | JFloat _ => false
  | JArr items => forallb serialisable items
  | JObj kvs => forallb (fun kv => serialisable (snd kv)) kvs
  | _ => true
  end.

End Py.

(** ** Events, the world and the pipeline monad *)

(** An f-string is kept as its pieces: [str()] of a decoded value that is
    not a string (a float, a list, a dict) is left symbolic. *)
Inductive fragment : Type :=
| Lit (s : string)
| StrOf (v : JSON).

Definition text : Type := list fragment.

(** [f"{v}"] *)
Definition fmt (v : JSON) : text :=
  match v with
  | JStr s => [Lit s]
  | _ => [StrOf v]
  end.

(** The calls the handler makes on the outside, in the order it makes them. *)
Inductive Event : Type :=
| EMakedirs (path : string)
| EPrint (line : string)
| EChat (model system : string) (user : text) (max_tokens : Z)
| EWrite (path : string) (content : text)
| ERun (argv : list string) (cwd : option string)
| EPost (url payload : JSON) (timeout : Z)
| ESleep (seconds : Z).

Inductive ChatOutcome : Type :=
| ChatContent (content : option string)
| ChatRaise (msg : string).

Inductive PostOutcome : Type :=
| PostStatus (status_code : Z)
| PostRaise (msg : string).

(** How a child process ends: it ran and exited with a return code, its
    standard output captured, or it could not be started ([not_found] when
    the program or the directory is missing, another [OSError] otherwise). *)
Inductive RunOutcome : Type :=
| Completed (returncode : Z) (stdout : string)
| NotStarted (not_found : bool).

(** What the outside answers during one request: whether the file system
    lets a directory be created and a file be opened and written, how the
    model and the child processes answer, what the callback endpoint does. *)
Record World : Type := {
  uuid4_hex : string;
  mkdir : string -> bool;
  chat : ChatOutcome;
  open_w : string -> bool;
  subprocess : list string -> RunOutcome;
  post : nat -> PostOutcome
}.

(** The environment variables read at start-up. *)
Record Config : Type := {
  STORED_SECRET : string;
  GITHUB_TOKEN : string;
  GITHUB_USERNAME : string;
  WORK_DIR : string;
  OPENAI_API_KEY : string
}.

Inductive Outcome : Type :=
| Response (status_code : Z) (body : JSON)
| Unhandled (e : Exn).

(** A computation emits events and then either goes on with a value or
    leaves with an [E]: at the level of the handler an [Outcome] (a returned
    response or an exception nobody catches), inside a [try] the text of the
    exception raised. *)
Definition M (E A : Type) : Type := (list Event * (A + E))%type.

Definition ret {E A} (a : A) : M E A := ([], inl a).

Definition leave {E A} (e : E) : M E A := ([], inr e).

Definition bind {E A B} (m : M E A) (k : A -> M E B) : M E B :=
  match m with
  | (tr, inl a) => let (tr', r) := k a in ((tr ++ tr')%list, r)
  | (tr, inr e) => (tr, inr e)
  end.

Definition emit {E} (ev : Event) : M E unit := ([ev], inl tt).

(** [try: m  except Exception as e: h e] *)
Definition catch {E E' A} (m : M E A) (h : E -> M E' A) : M E' A :=
  match m with
  | (tr, inl a) => (tr, inl a)
  | (tr, inr e) => let (tr', r) := h e in ((tr ++ tr')%list, r)
  end.

Definition lift {A} (r : result A) : M Outcome A :=
  match r with
  | Ok a => ret a
  | Raise e => leave (Unhandled e)
  end.

Definition raise {A} (e : Exn) : M Outcome A := leave (Unhandled e).

Declare Scope pipeline_scope.
Delimit Scope pipeline_scope with pipeline.
Notation "x <- m ;; k" := (bind m (fun x => k))
  (at level 100, m at next level, right associativity) : pipeline_scope.
Notation "m ;; k" := (bind m (fun _ => k))
  (at level 100, right associativity) : pipeline_scope.
Local Open Scope pipeline_scope.

Definition nl : string := String (ascii_of_nat 10) EmptyString.

(** [JSONResponse(body, status_code=...)]: the body is rendered when the
    response is built, with [allow_nan=False]. *)
Definition JSONResponse (body : JSON) (status_code : Z) : result Outcome :=
  if Py.serialisable body then Ok (Response status_code body)
  else Raise ValueError.

(** [return JSONResponse(body, status_code=...)] *)
Definition return_ {A} (body : JSON) (status_code : Z) : M Outcome A :=
  match JSONResponse body status_code with
  | Ok response => leave response
  | Raise e => leave (Unhandled e)
  end.

Definition error_body (msg : string) : JSON := JObj [("error", JStr msg)].

(** ** [generate_app_from_brief] *)

Definition prompt (brief : JSON) : text :=
  ([Lit "
    You are an expert web developer.
    Generate a minimal but functional HTML/JS/CSS application
    that fulfills this brief:

    "] ++ fmt brief ++ [Lit "

    Requirements:
    - Must be self-contained in a single HTML file
    - Include minimal inline JS and CSS
    - Use clean and professional structure
    - Display meaningful content or interactivity per the brief
    "])%list.

(** One chat completion; the content of the first choice, stripped.  A
    failure of the client, or a content that is [None], raises: the text of
    the exception is what the caller's [except] formats. *)
Definition generate_app_from_brief (w : World) (brief : JSON) : M string string :=
  emit (EChat "gpt-5" "You are a skilled web app generator." (prompt brief) 1500) ;;
  match chat w with
  | ChatRaise msg => leave msg
  | ChatContent None => leave "'NoneType' object has no attribute 'strip'"
  | ChatContent (Some content) => ret (PyStr.strip content)
  end.

(** ** [handle_request], block by block *)

Record Fields : Type := {
  email : string;
  task : string;
  round_ : Z;
  nonce : JSON;
  brief : JSON;
  evaluation_url : JSON;
  attachments : JSON
}.

(** [f"task-{uuid.uuid4().hex[:6]}"] *)
Definition default_task (w : World) : string :=
  "task-" ++ substring 0 6 (uuid4_hex w).

(** Extract Fields. *)
Definition extract_fields (w : World) (data : JSON) : M Outcome Fields :=
  email0 <- lift (Py.get data "email" (JStr "student@example.com")) ;;
  email <- lift (Py.escape email0) ;;
  task0 <- lift (Py.get data "task" (JStr (default_task w))) ;;
  task <- lift (Py.escape task0) ;;
  round0 <- lift (Py.get data "round" (JInt 1)) ;;
  round_ <- lift (Py.int round0) ;;
  nonce <- lift (Py.get data "nonce" JNull) ;;
  brief <- lift (Py.get data "brief" (JStr "")) ;;
  evaluation_url <- lift (Py.get data "evaluation_url" (JStr "")) ;;
  attachments <- lift (Py.get data "attachments" (JArr [])) ;;
  ret {| email := email; task := task; round_ := round_; nonce := nonce;
         brief := brief; evaluation_url := evaluation_url;
         attachments := attachments |}.

(** [f"{task}-{round_}".replace(" ", "-").lower()] *)
Definition repo_name_of (f : Fields) : string :=
  PyStr.lower (PyStr.replace " " "-" (task f ++ "-" ++ PyStr.of_int (round_ f))).

Definition repo_path_of (cfg : Config) (f : Fields) : string :=
  PyStr.path_join (WORK_DIR cfg) (repo_name_of f).

(** A call on the file system with a path that holds a NUL raises
    [ValueError] before the system is asked; another failure is an
    [OSError]. *)
Definition path_error (path : string) : Exn :=
  if PyStr.has_nul path then ValueError else OSError.

(** [os.makedirs(path, exist_ok=True)] succeeds. *)
Definition makedirs_ok (w : World) (path : string) : bool :=
  (negb (PyStr.has_nul path) && mkdir w path)%bool.

(** [os.makedirs(path, exist_ok=True)] *)
Definition makedirs (w : World) (path : string) : M Outcome unit :=
  emit (EMakedirs path) ;;
  if makedirs_ok w path then ret tt else raise (path_error path).

(** [with open(path, "w") as f: f.write(content)] succeeds. *)
Definition write_ok (w : World) (path : string) : bool :=
  (negb (PyStr.has_nul path) && open_w w path)%bool.

(** [with open(path, "w") as f: f.write(content)] *)
Definition write_file (w : World) (path : string) (content : text) : M Outcome unit :=
  emit (EWrite path content) ;;
  if write_ok w path then ret tt else raise (path_error path).

(** An argument or the directory of the call holds a NUL. *)
Definition nul_in_call (argv : list string) (cwd : option string) : bool :=
  (existsb PyStr.has_nul argv ||
   match cwd with
   | Some d => PyStr.has_nul d
   | None => false
   end)%bool.

(** What [subprocess.run(argv, cwd=cwd, check=True, stdout=PIPE)] gives:
    the standard output of a process that exits with status zero;
    [ValueError] for a NUL in the call, before any process is started; the
    [OSError] of a process that cannot be started; [CalledProcessError] for
    another exit status. *)
Definition run_result (w : World) (argv : list string) (cwd : option string)
  : result string :=
  if nul_in_call argv cwd then Raise ValueError
  else
    match subprocess w argv with
    | Completed returncode stdout =>
        if Z.eqb returncode 0 then Ok stdout else Raise CalledProcessError
    | NotStarted not_found =>
        Raise (if not_found then FileNotFoundError else OSError)
    end.

(** [subprocess.run(argv, cwd=cwd, check=True)] *)
Definition subprocess_run (w : World) (argv : list string) (cwd : option string)
  : M Outcome unit :=
  emit (ERun argv cwd) ;;
  match run_result w argv cwd with
  | Ok _ => ret tt
  | Raise e => raise e
  end.

(** [subprocess.check_output(argv, cwd=cwd).decode()] *)
Definition subprocess_check_output (w : World) (argv : list string) (cwd : option string)
  : M Outcome string :=
  emit (ERun argv cwd) ;;
  match run_result w argv cwd with
  | Ok out => ret out
  | Raise e => raise e
  end.

Definition readme (f : Fields) : text :=
  ([Lit ("# " ++ task f ++ nl ++ nl)] ++ fmt (brief f) ++
   [Lit (nl ++ nl ++ "Auto-generated for " ++ email f ++
         " (Round " ++ PyStr.of_int (round_ f) ++ ").")])%list.

Definition license : text :=
  [Lit ("MIT License" ++ nl ++ nl ++ "Copyright (c) 2025" ++ nl ++ nl ++
        "Permission is hereby granted...")].

(** Write Files. *)
Definition write_files (w : World) (repo_path : string) (f : Fields)
  (generated_code : string) : M Outcome unit :=
  write_file w (PyStr.path_join repo_path "index.html") [Lit generated_code] ;;
  write_file w (PyStr.path_join repo_path "README.md") (readme f) ;;
  write_file w (PyStr.path_join repo_path "LICENSE") license.

(** Git Setup. *)
Definition git_setup (w : World) (repo_path : string) (f : Fields) : M Outcome unit :=
  subprocess_run w ["git"; "init"] (Some repo_path) ;;
  subprocess_run w ["git"; "branch"; "-M"; "main"] (Some repo_path) ;;
  subprocess_run w ["git"; "config"; "user.name"; "AutoBot"] (Some repo_path) ;;
  subprocess_run w ["git"; "config"; "user.email"; email f] (Some repo_path) ;;
  subprocess_run w ["git"; "add"; "."] (Some repo_path) ;;
  subprocess_run w ["git"; "commit"; "-m"; "Initial commit for " ++ task f]
    (Some repo_path).

(** GitHub Repo Creation. *)
Definition github_repo_creation (w : World) (repo_name repo_path : string)
  : M Outcome unit :=
  subprocess_run w
    ["gh"; "repo"; "create"; repo_name;
     "--public"; "--source"; repo_path; "--push"; "--confirm"] None.

(** Enable GitHub Pages. *)
Definition enable_github_pages (cfg : Config) (w : World) (repo_name : string)
  : M Outcome unit :=
  subprocess_run w
    ["gh"; "api"; "repos/" ++ GITHUB_USERNAME cfg ++ "/" ++ repo_name ++ "/pages";
     "-f"; "source.branch=main";
     "-f"; "source.path=/"] None.

(** Metadata: the commit hash read back. *)
Definition read_commit_sha (w : World) (repo_path : string) : M Outcome string :=
  out <- subprocess_check_output w ["git"; "rev-parse"; "HEAD"] (Some repo_path) ;;
  ret (PyStr.strip out).

Definition repo_url_of (cfg : Config) (repo_name : string) : string :=
  "https://github.com/" ++ GITHUB_USERNAME cfg ++ "/" ++ repo_name.

Definition pages_url_of (cfg : Config) (repo_name : string) : string :=
  "https://" ++ GITHUB_USERNAME cfg ++ ".github.io/" ++ repo_name ++ "/".

Definition response_payload_of (f : Fields) (repo_url commit_sha pages_url : string)
  : JSON :=
  JObj [("email", JStr (email f));
        ("task", JStr (task f));
        ("round", JInt (round_ f));
        ("nonce", nonce f);
        ("repo_url", JStr repo_url);
        ("commit_sha", JStr commit_sha);
        ("pages_url", JStr pages_url)].

(** [requests.post(url, headers=..., json=payload, timeout=10)], then
    [r.status_code]. *)
Definition requests_post (w : World) (attempt : nat) (url payload : JSON)
  : M string Z :=
  emit (EPost url payload 10) ;;
  match post w attempt with
  | PostStatus status_code => ret status_code
  | PostRaise msg => leave msg
  end.

(** [for delay in delays: r = post(...); if r.status_code == 200: break;
    time.sleep(delay)], from the attempt numbered [attempt]. *)
Fixpoint post_loop (w : World) (url payload : JSON) (attempt : nat) (delays : list Z)
  : M string unit :=
  match delays with
  | [] => ret tt
  | delay :: rest =>
      status_code <- requests_post w attempt url payload ;;
      if Z.eqb status_code 200 then ret tt
      else (emit (ESleep delay) ;; post_loop w url payload (S attempt) rest)
  end.

Definition delays : list Z := [1; 2; 4; 8; 16].

(** Notify Evaluation Server. *)
Definition notify_evaluation_server (w : World) (url payload : JSON)
  : M Outcome unit :=
  if Py.truthy url then
    catch (post_loop w url payload 0 delays)
          (fun e => emit (EPrint ("⚠️ Evaluation callback failed: " ++ e)))
  else ret tt.

(** Git Setup, GitHub Repo Creation, Enable GitHub Pages and Metadata: the
    publishing commands, one after the other. *)
Definition publish (cfg : Config) (w : World) (f : Fields) : M Outcome string :=
  git_setup w (repo_path_of cfg f) f ;;
  github_repo_creation w (repo_name_of f) (repo_path_of cfg f) ;;
  enable_github_pages cfg w (repo_name_of f) ;;
  read_commit_sha w (repo_path_of cfg f).

(** The end of the handler, the commit hash being read: the payload, the
    notification and the response. *)
Definition respond (cfg : Config) (w : World) (f : Fields) (commit_sha : string)
  : M Outcome Outcome :=
  let repo_url := repo_url_of cfg (repo_name_of f) in
  let pages_url := pages_url_of cfg (repo_name_of f) in
  let response_payload := response_payload_of f repo_url commit_sha pages_url in
  notify_evaluation_server w (evaluation_url f) response_payload ;;
  lift (JSONResponse response_payload 200).

(** The handler from Prepare Repo on, the fields being extracted. *)
Definition deploy (cfg : Config) (w : World) (f : Fields) : M Outcome Outcome :=
  let repo_path := repo_path_of cfg f in
  makedirs w repo_path ;;
  emit (EPrint ("🤖 Generating code for: " ++ task f)) ;;
  generated_code <-
    catch (generate_app_from_brief w (brief f))
          (fun e => return_ (error_body ("LLM generation failed: " ++ e)) 500) ;;
  write_files w repo_path f generated_code ;;
  commit_sha <- publish cfg w f ;;
  respond cfg w f commit_sha.

(** The handler once the body is decoded: Secret Verification, Extract
    Fields, and the rest. *)
Definition handle_data (cfg : Config) (w : World) (data : JSON) : M Outcome Outcome :=
  secret <- lift (Py.get data "secret" JNull) ;;
  if negb (Py.eq_str secret (STORED_SECRET cfg)) then
    lift (JSONResponse (error_body "Invalid secret") 403)
  else
    (f <- extract_fields w data ;;
     deploy cfg w f).

(** What the server sees of a handler: the response it returned, or the
    response or exception it left with. *)
Definition finish (m : M Outcome Outcome) : list Event * Outcome :=
  match m with
  | (tr, inl response) => (tr, response)
  | (tr, inr o) => (tr, o)
  end.

(** [handle_request]: [None] is a body that [request.json()] rejects. *)
Definition handle_request (cfg : Config) (w : World) (body : option JSON)
  : list Event * Outcome :=
  match body with
  | None => finish (lift (JSONResponse (error_body "Invalid JSON") 400))
  | Some data =>
      finish (handle_data cfg w data)
  end.

(** ** Vocabulary of the statements *)

(** The value of [data.get(key, default)] on the dict [kvs]. *)
Definition field (kvs : list (string * JSON)) (key : string) (default : JSON) : JSON :=
  match Py.assoc key kvs with
  | Some v => v
  | None => default
  end.

(** The request carries the shared credential in its [secret] field. *)
Definition authenticated (cfg : Config) (kvs : list (string * JSON)) : Prop :=
  Py.assoc "secret" kvs = Some (JStr (STORED_SECRET cfg)).

(** The request's [email], [task] and [round], before escaping and
    conversion, with their defaults. *)
Definition request_email (kvs : list (string * JSON)) : JSON :=
  field kvs "email" (JStr "student@example.com").

Definition request_task (w : World) (kvs : list (string * JSON)) : JSON :=
  field kvs "task" (JStr (default_task w)).

Definition request_round (kvs : list (string * JSON)) : JSON :=
  field kvs "round" (JInt 1).

(** The fields extracted from a request whose email and task are the
    strings [email0] and [task0] and whose round converts to [r]. *)
Definition fields_of (kvs : list (string * JSON)) (email0 task0 : string) (r : Z)
  : Fields :=
  {| email := PyStr.html_escape email0;
     task := PyStr.html_escape task0;
     round_ := r;
     nonce := field kvs "nonce" JNull;
     brief := field kvs "brief" (JStr "");
     evaluation_url := field kvs "evaluation_url" (JStr "");
     attachments := field kvs "attachments" (JArr []) |}.

(** The project identity in the words of the data model: [{task}-{round}],
    lowercased, spaces replaced with hyphens. *)
Definition project_identity (task : string) (round : Z) : string :=
  PyStr.replace " " "-" (PyStr.lower (task ++ "-" ++ PyStr.of_int round)).

(** The three files of the project. *)
Definition project_files (cfg : Config) (f : Fields) (generated_code : string)
  : list (string * text) :=
  [(PyStr.path_join (repo_path_of cfg f) "index.html", [Lit generated_code]);
   (PyStr.path_join (repo_path_of cfg f) "README.md", readme f);
   (PyStr.path_join (repo_path_of cfg f) "LICENSE", license)].

(** The events up to the last file written, when nothing fails. *)
Definition materialise_events (cfg : Config) (f : Fields) (generated_code : string)
  : list Event :=
  ([EMakedirs (repo_path_of cfg f);
    EPrint ("🤖 Generating code for: " ++ task f);
    EChat "gpt-5" "You are a skilled web app generator." (prompt (brief f)) 1500] ++
   map (fun pc => EWrite (fst pc) (snd pc)) (project_files cfg f generated_code))%list.

(** The publishing commands, in the order of the eight steps; the third
    step takes two commands. *)
Definition publish_commands (cfg : Config) (f : Fields)
  : list (list string * option string) :=
  let repo_path := repo_path_of cfg f in
  let repo_name := repo_name_of f in
  [(["git"; "init"], Some repo_path);
   (["git"; "branch"; "-M"; "main"], Some repo_path);
   (["git"; "config"; "user.name"; "AutoBot"], Some repo_path);
   (["git"; "config"; "user.email"; email f], Some repo_path);
   (["git"; "add"; "."], Some repo_path);
   (["git"; "commit"; "-m"; "Initial commit for " ++ task f], Some repo_path);
   (["gh"; "repo"; "create"; repo_name;
     "--public"; "--source"; repo_path; "--push"; "--confirm"], None);
   (["gh"; "api"; "repos/" ++ GITHUB_USERNAME cfg ++ "/" ++ repo_name ++ "/pages";
     "-f"; "source.branch=main"; "-f"; "source.path=/"], None);
   (["git"; "rev-parse"; "HEAD"], Some repo_path)].

Definition run_event (c : list string * option string) : Event :=
  ERun (fst c) (snd c).

(** A publishing command succeeds in the world [w]. *)
Definition command_ok (w : World) (c : list string * option string) : bool :=
  match run_result w (fst c) (snd c) with
  | Ok _ => true
  | Raise _ => false
  end.

(** The first publishing command that fails, if one does. *)
Fixpoint first_failure (w : World) (cs : list (list string * option string))
  : option (list string * option string) :=
  match cs with
  | [] => None
  | c :: rest => if command_ok w c then first_failure w rest else Some c
  end.

(** The exception of a publishing command that fails. *)
Definition command_error (w : World) (c : list string * option string) : Exn :=
  match run_result w (fst c) (snd c) with
  | Ok _ => CalledProcessError
  | Raise e => e
  end.

(** The number of publishing commands that run: all of them, or those up to
    and including the first that fails. *)
Fixpoint commands_run (w : World) (cs : list (list string * option string)) : nat :=
  match cs with
  | [] => 0
  | c :: rest => if command_ok w c then S (commands_run w rest) else 1
  end.

(** Nothing fails up to the last file written, and the generator returns
    [content]. *)
Definition materialises (cfg : Config) (w : World) (f : Fields) (content : string)
  : Prop :=
  makedirs_ok w (repo_path_of cfg f) = true /\
  chat w = ChatContent (Some content) /\
  forallb (fun pc => write_ok w (fst pc)) (project_files cfg f "") = true.

(** Every publishing command succeeds and the hash read back is [out]. *)
Definition publishes (cfg : Config) (w : World) (f : Fields) (out : string) : Prop :=
  forallb (command_ok w) (publish_commands cfg f) = true /\
  run_result w ["git"; "rev-parse"; "HEAD"] (Some (repo_path_of cfg f)) = Ok out.

Definition is_post (ev : Event) : bool :=
  match ev with EPost _ _ _ => true | _ => false end.

Definition is_sleep (ev : Event) : bool :=
  match ev with ESleep _ => true | _ => false end.

Definition file_system_effect (ev : Event) : bool :=
  match ev with EMakedirs _ | EWrite _ _ => true | _ => false end.

Definition version_control_effect (ev : Event) : bool :=
  match ev with ERun _ _ => true | _ => false end.

(** The number of POST attempts in a trace. *)
Definition attempts (tr : list Event) : nat := length (filter is_post tr).

(** Attempts that each fail with a status and are each followed by their
    wait. *)
Fixpoint failed_attempts (url payload : JSON) (ds : list Z) : list Event :=
  match ds with
  | [] => []
  | d :: rest => EPost url payload 10 :: ESleep d :: failed_attempts url payload rest
  end.

(** The attempt numbered [i] answers with a status other than 200. *)
Definition non_200 (w : World) (i : nat) : Prop :=
  exists status_code, post w i = PostStatus status_code /\ status_code <> 200.

(** The trace ends with a wait. *)
Definition ends_with_wait (tr : list Event) : Prop :=
  exists pre d, tr = (pre ++ [ESleep d])%list.

(** The same world with another callback endpoint. *)
Definition set_post (w : World) (p : nat -> PostOutcome) : World :=
  {| uuid4_hex := uuid4_hex w;
     mkdir := mkdir w;
     chat := chat w;
     open_w := open_w w;
     subprocess := subprocess w;
     post := p |}.

(** The keys of a JSON object. *)
Definition keys (v : JSON) : list string :=
  match v with
  | JObj kvs => map fst kvs
  | _ => []
  end.

(** A string without any of the five characters that [html.escape]
    rewrites. *)
Definition plain (s : string) : bool :=
  negb (PyStr.contains "&" s || PyStr.contains "<" s || PyStr.contains ">" s ||
        PyStr.contains PyStr.dquote s || PyStr.contains "'" s).

(** The payload of the response to the request [kvs] whose fields are [f]. *)
Definition payload_of (cfg : Config) (f : Fields) (commit_sha : string) : JSON :=
  response_payload_of f (repo_url_of cfg (repo_name_of f)) commit_sha
                      (pages_url_of cfg (repo_name_of f)).

(** The text of the exception that [generate_app_from_brief] raises in the
    world [w], if it raises. *)
Definition generation_error (w : World) : option string :=
  match chat w with
  | ChatRaise msg => Some msg
  | ChatContent None => Some "'NoneType' object has no attribute 'strip'"
  | ChatContent (Some _) => None
  end.

(** The handler after the last file is written. *)
Definition publish_and_respond (cfg : Config) (w : World) (f : Fields)
  : M Outcome Outcome :=
  commit_sha <- publish cfg w f ;;
  respond cfg w f commit_sha.

(** ** Concrete requests and worlds *)

Module Sample.

Definition cfg : Config :=
  {| STORED_SECRET := "S";
     GITHUB_TOKEN := "ghp_token";
     GITHUB_USERNAME := "u";
     WORK_DIR := "./workspace";
     OPENAI_API_KEY := "sk-key" |}.

(** Every call succeeds: the generator returns the artifact, the hash read
    back is [abc123] and the callback endpoint answers as [p] says. *)
Definition world (p : nat -> PostOutcome) : World :=
  {| uuid4_hex := "3f2a9c0d1b7e4f6a8c5d2e1f0a9b8c7d";
     mkdir := fun _ => true;
     chat := ChatContent (Some "<html>..</html>");
     open_w := fun _ => true;
     subprocess := fun argv =>
       match argv with
       | ["git"; "rev-parse"; "HEAD"] => Completed 0 ("abc123" ++ nl)
       | _ => Completed 0 ""
       end;
     post := p |}.

Definition always_500 : nat -> PostOutcome := fun _ => PostStatus 500.

Definition four_failures_then_200 : nat -> PostOutcome :=
  fun i => if Nat.ltb i 4 then PostStatus 503 else PostStatus 200.

Definition connection_refused : nat -> PostOutcome :=
  fun _ => PostRaise "Connection refused".

(** The generator fails. *)
Definition world_generation_fails : World :=
  {| uuid4_hex := uuid4_hex (world always_500);
     mkdir := fun _ => true;
     chat := ChatRaise "Connection error.";
     open_w := fun _ => true;
     subprocess := fun _ => Completed 0 "";
     post := always_500 |}.

(** The remote repository already exists: its creation fails. *)
Definition world_name_taken : World :=
  {| uuid4_hex := uuid4_hex (world always_500);
     mkdir := fun _ => true;
     chat := ChatContent (Some "<html>..</html>");
     open_w := fun _ => true;
     subprocess := fun argv =>
       match argv with
       | "gh" :: "repo" :: "create" :: _ => Completed 1 ""
       | _ => Completed 0 ""
       end;
     post := always_500 |}.

(** The end-to-end request of the testable properties. *)
Definition request : list (string * JSON) :=
  [("secret", JStr "S"); ("task", JStr "Quiz App"); ("round", JInt 1);
   ("brief", JStr "a quiz app")].

Definition request_with_callback : list (string * JSON) :=
  ("evaluation_url", JStr "https://example.com/notify") :: request.

Definition request_wrong_secret : list (string * JSON) :=
  [("secret", JStr "guess"); ("task", JStr "Quiz App"); ("round", JInt 1);
   ("brief", JStr "a quiz app")].

Definition request_markup : list (string * JSON) :=
  [("secret", JStr "S"); ("email", JStr "a<b>@example.com"); ("task", JStr "R&D");
   ("round", JInt 2); ("brief", JStr "a dashboard")].

Definition request_bad_round : list (string * JSON) :=
  [("secret", JStr "S"); ("task", JStr "Quiz App"); ("round", JStr "two");
   ("brief", JStr "a quiz app")].

Definition url : JSON := JStr "https://example.com/notify".

Definition payload : JSON :=
  JObj [("email", JStr "student@example.com");
        ("task", JStr "Quiz App");
        ("round", JInt 1);
        ("nonce", JNull);
        ("repo_url", JStr "https://github.com/u/quiz-app-1");
        ("commit_sha", JStr "abc123");
        ("pages_url", JStr "https://u.github.io/quiz-app-1/")].

End Sample.

(** ** Start-up of the module *)

(** [os.getenv(name)] on the environment, [load_dotenv()] done. *)
Fixpoint getenv (environ : list (string * string)) (name : string) : option string :=
  match environ with
  | [] => None
  | (k, v) :: rest => if String.eqb k name then Some v else getenv rest name
  end.

(** [not v] for the value of a variable: unset, or set to the empty
    string. *)
Definition unset (v : option string) : bool :=
  match v with
  | None => true
  | Some s => String.eqb s ""
  end.

Definition value (v : option string) : string :=
  match v with
  | Some s => s
  | None => ""
  end.

(** What stops the module from loading. *)
Inductive StartError : Type :=
| RuntimeError (msg : string)
| StartFault (e : Exn).

(** The statements of the module, from the Environment Variables block to
    [os.makedirs(WORK_DIR, exist_ok=True)]. *)
Definition startup (environ : list (string * string)) (w : World)
  : M StartError Config :=
  let stored_secret := getenv environ "STORED_SECRET" in
  let github_token := getenv environ "GITHUB_TOKEN" in
  let github_username := getenv environ "GITHUB_USERNAME" in
  let work_dir :=
    match getenv environ "WORK_DIR" with
    | Some d => d
    | None => "./workspace"
    end in
  let openai_api_key := getenv environ "OPENAI_API_KEY" in
  if unset stored_secret then leave (RuntimeError "STORED_SECRET not set in .env")
  else if unset github_token then leave (RuntimeError "GITHUB_TOKEN not set in .env")
  else if unset github_username then
    leave (RuntimeError "GITHUB_USERNAME not set in .env")
  else if unset openai_api_key then
    leave (RuntimeError "OPENAI_API_KEY not set in .env")
  else
    (emit (EMakedirs work_dir) ;;
     if makedirs_ok w work_dir then
       ret {| STORED_SECRET := value stored_secret;
              GITHUB_TOKEN := value github_token;
              GITHUB_USERNAME := value github_username;
              WORK_DIR := work_dir;
              OPENAI_API_KEY := value openai_api_key |}
     else leave (StartFault (path_error work_dir))).

(** ** Vocabulary of the further statements *)

(** The variables the module requires, in the order it checks them. *)
Definition required_variables : list string :=
  ["STORED_SECRET"; "GITHUB_TOKEN"; "GITHUB_USERNAME"; "OPENAI_API_KEY"].

(** The first required variable that is unset, if one is. *)
Fixpoint first_unset (environ : list (string * string)) (names : list string)
  : option string :=
  match names with
  | [] => None
  | name :: rest =>
      if unset (getenv environ name) then Some name else first_unset environ rest
  end.

(** Every character of the string satisfies [p]. *)
Fixpoint all_chars (p : ascii -> bool) (s : string) : bool :=
  match s with
  | EmptyString => true
  | String c rest => (p c && all_chars p rest)%bool
  end.

(** Some character of the string satisfies [p]. *)
Fixpoint any_char (p : ascii -> bool) (s : string) : bool :=
  match s with
  | EmptyString => false
  | String c rest => (p c || any_char p rest)%bool
  end.

(** The string holds an ASCII capital. *)
Fixpoint has_upper (s : string) : bool :=
  match s with
  | EmptyString => false
  | String c rest => (PyStr.is_upper c || has_upper rest)%bool
  end.

(** The code the generator returns in the world [w], when it returns. *)
Definition generated_code (w : World) : string :=
  match chat w with
  | ChatContent (Some content) => PyStr.strip content
  | _ => ""
  end.

(** The events of a run that nothing stops, before the notification. *)
Definition pipeline_events (cfg : Config) (w : World) (f : Fields) : list Event :=
  (materialise_events cfg f (generated_code w) ++
   map run_event (publish_commands cfg f))%list.

(** The end of a run that stops after [n] events of the pipeline: on the
    directory, on the generator, on one of the files, or on the command
    numbered [n - 7]. *)
Definition stops_at (cfg : Config) (w : World) (f : Fields) (n : nat) (o : Outcome)
  : Prop :=
  (n = 1%nat /\ o = Unhandled (path_error (repo_path_of cfg f))) \/
  (n = 3%nat /\
   exists e, o = Response 500 (error_body ("LLM generation failed: " ++ e))) \/
  ((4 <= n <= 6)%nat /\ o = Unhandled OSError) \/
  ((7 <= n <= 15)%nat /\
   exists c, nth_error (publish_commands cfg f) (n - 7) = Some c /\
             command_ok w c = false /\
             o = Unhandled (command_error w c)).

(** What [return JSONResponse(payload, status_code=200)] ends the handler
    with. *)
Definition final_outcome (response_payload : JSON) : Outcome :=
  if Py.serialisable response_payload then Response 200 response_payload
  else Unhandled ValueError.

(** The time a trace spends waiting. *)
Fixpoint total_wait (tr : list Event) : Z :=
  match tr with
  | [] => 0
  | ESleep d :: rest => d + total_wait rest
  | _ :: rest => total_wait rest
  end.

Definition is_chat (ev : Event) : bool :=
  match ev with EChat _ _ _ _ => true | _ => false end.

Definition is_write (ev : Event) : bool :=
  match ev with EWrite _ _ => true | _ => false end.

Module Sample2.

Definition environ : list (string * string) :=
  [("STORED_SECRET", "S"); ("GITHUB_TOKEN", "ghp_token");
   ("GITHUB_USERNAME", "u"); ("OPENAI_API_KEY", "sk-key")].

(** The token is there but empty, and the account is missing. *)
Definition environ_no_token : list (string * string) :=
  [("STORED_SECRET", "S"); ("GITHUB_TOKEN", ""); ("OPENAI_API_KEY", "sk-key")].

(** The disk is full when the readme is written. *)
Definition world_readme_fails : World :=
  {| uuid4_hex := uuid4_hex (Sample.world Sample.always_500);
     mkdir := fun _ => true;
     chat := ChatContent (Some "<html>..</html>");
     open_w := fun path => negb (String.eqb path "./workspace/quiz-app-1/README.md");
     subprocess := fun _ => Completed 0 "";
     post := Sample.always_500 |}.

(** The completion is nothing but white space. *)
Definition world_blank_completion : World :=
  {| uuid4_hex := uuid4_hex (Sample.world Sample.always_500);
     mkdir := fun _ => true;
     chat := ChatContent (Some (" " ++ nl ++ "  "));
     open_w := fun _ => true;
     subprocess := subprocess (Sample.world Sample.always_500);
     post := Sample.always_500 |}.

Definition request_empty_secret : list (string * JSON) :=
  [("secret", JStr ""); ("task", JStr "Quiz App")].

Definition request_null_callback : list (string * JSON) :=
  ("evaluation_url", JNull) :: Sample.request.

Definition request_email_number : list (string * JSON) :=
  [("secret", JStr "S"); ("email", JInt 5); ("task", JStr "Quiz App")].

Definition request_round_text : list (string * JSON) :=
  [("secret", JStr "S"); ("task", JStr "Quiz App"); ("round", JStr "-12");
   ("brief", JStr "a quiz app")].

(** The nonce is [1e400], which the decoder reads as infinity. *)
Definition request_infinite_nonce : list (string * JSON) :=
  [("secret", JStr "S"); ("task", JStr "Quiz App"); ("round", JInt 1);
   ("nonce", JFloat (FInf false)); ("brief", JStr "a quiz app")].

(** A body that decodes to a list. *)
Definition body_list : JSON := JArr [JInt 1; JInt 2].

Definition request_bad_email_and_round : list (string * JSON) :=
  [("secret", JStr "S"); ("email", JInt 5); ("round", JStr "two")].

(** The email holds a NUL character. *)
Definition request_nul_email : list (string * JSON) :=
  [("secret", JStr "S"); ("email", JStr (String PyStr.nul "@example.com"));
   ("task", JStr "Quiz App"); ("round", JInt 1)].

(** The task holds a NUL character. *)
Definition request_nul_task : list (string * JSON) :=
  [("secret", JStr "S"); ("task", JStr (String PyStr.nul "quiz")); ("round", JInt 1)].

(** The [git] program is not installed. *)
Definition world_no_git : World :=
  {| uuid4_hex := uuid4_hex (Sample.world Sample.always_500);
     mkdir := fun _ => true;
     chat := ChatContent (Some "<html>..</html>");
     open_w := fun _ => true;
     subprocess := fun argv =>
       match argv with
       | "git" :: _ => NotStarted true
       | _ => Completed 0 ""
       end;
     post := Sample.always_500 |}.


End Sample2.

(** * Properties *)

(** ** Python primitives on examples *)

Example int_of_string_examples :
  Py.int_of_string " 12 " = Some 12 /\ Py.int_of_string "-007" = Some (-7) /\
  Py.int_of_string "1_000" = Some 1000 /\ Py.int_of_string "1__0" = None /\
  Py.int_of_string "_1" = None /\ Py.int_of_string "+" = None /\
  Py.int_of_string "two" = None /\ Py.int_of_string "" = None.
Proof. repeat split; reflexivity. Qed.

(** The separators 0x1C-0x1F are white space for [str.strip()] and not for
    [int()]. *)
Example separator_examples :
  let fs := String (ascii_of_nat 28) "" in
  PyStr.strip (fs ++ "5") = "5" /\
  Py.int_of_string (fs ++ "5") = None /\
  Py.int (JStr (fs ++ "5")) = Raise ValueError /\
  Py.int (JStr (nl ++ "5 ")) = Ok 5.
Proof. repeat split; reflexivity. Qed.

(** A text of more digits than the limit is refused, whatever it holds. *)
Lemma int_of_string_over_limit (s : string) :
  Py.max_str_digits < Py.digit_count (PyStr.strip_by Py.int_space s) ->
  Py.int_of_string s = None.
Proof.
  intros Hover. unfold Py.int_of_string. cbv zeta.
  apply Z.ltb_lt in Hover. now rewrite Hover.
Qed.

Example serialisable_examples :
  Py.serialisable (JObj [("nonce", JArr [JInt 1; JFloat (FInf true)])]) = false /\
  Py.serialisable (JObj [("nonce", JFloat (FFinite (1 # 2)))]) = true /\
  JSONResponse (JObj [("nonce", JFloat FNaN)]) 200 = Raise ValueError.
Proof. repeat split; reflexivity. Qed.

Example html_escape_examples :
  PyStr.html_escape "Tom & <b>Jerry</b>" = "Tom &amp; &lt;b&gt;Jerry&lt;/b&gt;" /\
  PyStr.html_escape "o'brien@example.com" = "o&#x27;brien@example.com" /\
  PyStr.html_escape "Quiz App" = "Quiz App".
Proof. repeat split; reflexivity. Qed.

Example path_join_examples :
  PyStr.path_join "./workspace" "quiz-app-1" = "./workspace/quiz-app-1" /\
  PyStr.path_join "work/" "a-1" = "work/a-1" /\
  PyStr.path_join "./workspace" "/etc-1" = "/etc-1" /\
  PyStr.path_join "" "a-1" = "a-1".
Proof. repeat split; reflexivity. Qed.

(** ** Strings *)

Lemma length_append (a b : string) :
  String.length (a ++ b) = (String.length a + String.length b)%nat.
Proof. induction a as [|c a IH]; simpl; [reflexivity | now rewrite IH]. Qed.

Lemma contains_append (c : ascii) (a b : string) :
  PyStr.contains c (a ++ b) = (PyStr.contains c a || PyStr.contains c b)%bool.
Proof.
  induction a as [|d a IH]; simpl; [reflexivity|].
  rewrite IH. now rewrite orb_assoc.
Qed.

(** A replacement by a non-empty string never shortens the string, and
    lengthens it when the character occurs and the replacement has at least
    two characters. *)
Lemma replace_length_le (old : ascii) (new s : string) :
  (1 <= String.length new)%nat ->
  (String.length s <= String.length (PyStr.replace old new s))%nat.
Proof.
  intros Hnew. induction s as [|c s IH]; simpl; [lia|].
  destruct (Ascii.eqb c old); simpl; [rewrite length_append|]; lia.
Qed.



Lemma replace_length_ge (n : nat) (old : ascii) (new s : string) :
  (1 <= String.length new)%nat ->
  (n <= String.length s)%nat ->
  (n <= String.length (PyStr.replace old new s))%nat.
Proof.
  intros Hnew Hn. pose proof (replace_length_le old new s Hnew). lia.
Qed.



Lemma replace_absent (old : ascii) (new s : string) :
  PyStr.contains old s = false -> PyStr.replace old new s = s.
Proof.
  induction s as [|c s IH]; simpl; [reflexivity|].
  destruct (Ascii.eqb c old); simpl; [discriminate|].
  intros Hc. now rewrite IH.
Qed.

Lemma html_escape_plain (s : string) :
  plain s = true -> PyStr.html_escape s = s.
Proof.
  unfold plain. rewrite negb_true_iff, !orb_false_iff.
  intros [[[[Ha Hl] Hg] Hq] Hs]. unfold PyStr.html_escape.
  now rewrite (replace_absent "&"), (replace_absent "<"), (replace_absent ">"),
    (replace_absent PyStr.dquote), (replace_absent "'").
Qed.

Lemma lower_char_space (c : ascii) :
  Ascii.eqb (PyStr.lower_char c) " " = Ascii.eqb c " ".
Proof. destruct c as [[] [] [] [] [] [] [] []]; reflexivity. Qed.

(** Lowercasing and replacing spaces by hyphens commute. *)
Lemma lower_replace_space (s : string) :
  PyStr.lower (PyStr.replace " " "-" s) = PyStr.replace " " "-" (PyStr.lower s).
Proof.
  induction s as [|c s IH]; simpl; [reflexivity|].
  rewrite lower_char_space.
  destruct (Ascii.eqb c " "); simpl; now rewrite IH.
Qed.

(** ** The pipeline monad *)

Lemma bind_value {E A B} (tr : list Event) (a : A) (k : A -> M E B) :
  bind (tr, inl a) k = ((tr ++ fst (k a))%list, snd (k a)).
Proof. unfold bind. now destruct (k a). Qed.

Lemma bind_emit {E B} (ev : Event) (k : unit -> M E B) :
  bind (emit ev) k = (ev :: fst (k tt), snd (k tt)).
Proof. unfold emit. now rewrite bind_value. Qed.

(** ** Secret verification and the extraction of the fields *)

Lemma get_obj (kvs : list (string * JSON)) (key : string) (default : JSON) :
  Py.get (JObj kvs) key default = Ok (field kvs key default).
Proof. unfold Py.get, field. now destruct (Py.assoc key kvs). Qed.

Lemma handle_request_authenticated (cfg : Config) (w : World) (kvs : list (string * JSON)) :
  authenticated cfg kvs ->
  handle_request cfg w (Some (JObj kvs)) =
  finish (f <- extract_fields w (JObj kvs) ;; deploy cfg w f).
Proof.
  intros H. unfold handle_request, handle_data.
  rewrite get_obj. unfold field. rewrite H. simpl.
  rewrite String.eqb_refl. simpl.
  now destruct (bind _ _).
Qed.

Lemma extract_fields_ok (w : World) (kvs : list (string * JSON)) (e0 t0 : string) (r : Z) :
  request_email kvs = JStr e0 ->
  request_task w kvs = JStr t0 ->
  Py.int (request_round kvs) = Ok r ->
  extract_fields w (JObj kvs) = ([], inl (fields_of kvs e0 t0 r)).
Proof.
  unfold request_email, request_task, request_round, extract_fields.
  intros He Ht Hr. rewrite !get_obj, He, Ht. simpl. rewrite Hr. reflexivity.
Qed.

(** Extraction has no side effect, and leaves only with an exception. *)
Lemma extract_fields_pure (w : World) (data : JSON) :
  fst (extract_fields w data) = [] /\
  forall o, snd (extract_fields w data) = inr o -> exists e, o = Unhandled e.
Proof.
  unfold extract_fields.
  destruct data as [| | | | |items|kvs];
    try (simpl; split; [reflexivity | intros o [= <-]; eauto]).
  rewrite !get_obj.
  destruct (field kvs "email" _); simpl;
    try (split; [reflexivity | intros o [= <-]; eauto]).
  destruct (field kvs "task" _); simpl;
    try (split; [reflexivity | intros o [= <-]; eauto]).
  destruct (Py.int _); simpl;
    split; [reflexivity | intros o [= <-]; eauto | reflexivity | intros o [= <-]; eauto].
Qed.

(** A request with good fields goes on to [deploy]. *)
Lemma handle_request_deploys (cfg : Config) (w : World) (kvs : list (string * JSON))
  (e0 t0 : string) (r : Z) :
  authenticated cfg kvs ->
  request_email kvs = JStr e0 ->
  request_task w kvs = JStr t0 ->
  Py.int (request_round kvs) = Ok r ->
  handle_request cfg w (Some (JObj kvs)) = finish (deploy cfg w (fields_of kvs e0 t0 r)).
Proof.
  intros Ha He Ht Hr.
  rewrite (handle_request_authenticated _ _ _ Ha), (extract_fields_ok _ _ _ _ _ He Ht Hr).
  rewrite bind_value. simpl. now destruct (deploy _ _ _).
Qed.

(** ** The publishing commands *)

Ltac unfold_publish :=
  unfold publish, git_setup, github_repo_creation, enable_github_pages,
    read_commit_sha, subprocess_run, subprocess_check_output, raise,
    publish_commands, commands_run, first_failure, command_ok, forallb;
  cbn [fst snd].

Ltac step_command :=
  match goal with
  | |- context [run_result ?w ?argv ?cwd] =>
      let E := fresh "E" in destruct (run_result w argv cwd) eqn:E
  end.

(** The publisher runs the commands of [publish_commands] in order, up to
    and including the first that fails. *)
Lemma publish_trace (cfg : Config) (w : World) (f : Fields) :
  fst (publish cfg w f) =
  map run_event (firstn (commands_run w (publish_commands cfg f)) (publish_commands cfg f)).
Proof.
  unfold_publish.
  repeat (step_command; [| reflexivity]).
  reflexivity.
Qed.

Lemma some_eq {A} (a b : A) : Some a = Some b -> a = b.
Proof. now intros [= ->]. Qed.

(** A publisher one of whose commands fails leaves with the exception of
    that command. *)
Lemma publish_fails (cfg : Config) (w : World) (f : Fields)
  (c : list string * option string) :
  first_failure w (publish_commands cfg f) = Some c ->
  snd (publish cfg w f) = inr (Unhandled (command_error w c)).
Proof.
  unfold_publish.
  repeat (step_command;
          [| intros Hc; apply some_eq in Hc; subst c;
             unfold command_error; cbn [fst snd];
             match goal with
             | H : run_result _ _ _ = Raise _ |- _ => rewrite H
             end; reflexivity]).
  discriminate.
Qed.

Lemma publish_succeeds (cfg : Config) (w : World) (f : Fields) (out : string) :
  publishes cfg w f out ->
  publish cfg w f = (map run_event (publish_commands cfg f), inl (PyStr.strip out)).
Proof.
  intros [Hall Hout]. revert Hall. unfold_publish. rewrite Hout.
  repeat (step_command; [| discriminate]).
  reflexivity.
Qed.

Lemma first_failure_spec (w : World) (cs : list (list string * option string)) :
  match first_failure w cs with
  | Some c =>
      forallb (command_ok w) cs = false /\
      (1 <= commands_run w cs <= length cs)%nat /\
      nth_error cs (commands_run w cs - 1) = Some c /\
      command_ok w c = false
  | None => forallb (command_ok w) cs = true
  end.
Proof.
  induction cs as [|c cs IH]; [reflexivity|].
  cbn [first_failure forallb commands_run length].
  destruct (command_ok w c) eqn:Hc; cbn [andb].
  - destruct (first_failure w cs) as [c'|]; [| exact IH].
    destruct IH as (Hall & Hn & Hnth & Hfail).
    repeat split; try assumption; try lia.
    destruct (commands_run w cs) as [|n]; [lia|].
    cbn [Nat.sub nth_error] in *. now rewrite Nat.sub_0_r in *.
  - repeat split; try reflexivity; try lia. exact Hc.
Qed.

(** ** The notification *)

Lemma post_loop_all_fail (w : World) (url payload : JSON) (ds : list Z) :
  forall a : nat,
  (forall i : nat, (i < length ds)%nat -> non_200 w (a + i)) ->
  post_loop w url payload a ds = (failed_attempts url payload ds, inl tt).
Proof.
  induction ds as [|d ds IH]; intros a Hall; [reflexivity|].
  destruct (Hall 0%nat) as (c & Hc & Hne); [simpl; lia|].
  rewrite Nat.add_0_r in Hc.
  cbn [post_loop failed_attempts]. unfold requests_post.
  rewrite bind_emit, Hc. cbn [fst snd ret bind app].
  apply Z.eqb_neq in Hne. rewrite Hne.
  rewrite bind_emit, IH; [reflexivity|].
  intros i Hi. replace (S a + i)%nat with (a + S i)%nat by lia.
  apply Hall. simpl. lia.
Qed.

(** The loop through the attempts before the attempt [k], all answered by
    a status other than 200, and what the attempt [k] does to it. *)
Lemma post_loop_prefix (w : World) (url payload : JSON) (ds : list Z) :
  forall (a k : nat),
  (k < length ds)%nat ->
  (forall i : nat, (i < k)%nat -> non_200 w (a + i)) ->
  post_loop w url payload a ds =
  ((failed_attempts url payload (firstn k ds) ++
    fst (post_loop w url payload (a + k) (skipn k ds)))%list,
   snd (post_loop w url payload (a + k) (skipn k ds))).
Proof.
  induction ds as [|d ds IH]; intros a k Hk Hbefore; [simpl in Hk; lia|].
  destruct k as [|k].
  - rewrite Nat.add_0_r. cbn [firstn skipn failed_attempts app].
    now destruct (post_loop w url payload a (d :: ds)).
  - destruct (Hbefore 0%nat) as (c & Hc & Hne); [lia|].
    rewrite Nat.add_0_r in Hc.
    cbn [post_loop firstn skipn failed_attempts]. unfold requests_post.
    rewrite bind_emit, Hc. cbn [fst snd ret bind app].
    apply Z.eqb_neq in Hne. rewrite Hne.
    rewrite bind_emit, (IH (S a) k).
    + replace (S a + k)%nat with (a + S k)%nat by lia. reflexivity.
    + simpl in Hk. lia.
    + intros i Hi. replace (S a + i)%nat with (a + S i)%nat by lia.
      apply Hbefore. lia.
Qed.

Lemma post_loop_attempts (w : World) (url payload : JSON) (ds : list Z) :
  forall a : nat,
  (attempts (fst (post_loop w url payload a ds)) <= length ds)%nat.
Proof.
  unfold attempts.
  induction ds as [|d ds IH]; intros a; [simpl; lia|].
  cbn [post_loop]. unfold requests_post. rewrite bind_emit.
  destruct (post w a) as [c|msg]; cbn [fst snd ret bind leave app filter is_post length].
  - destruct (Z.eqb c 200); cbn [fst snd ret filter is_post length]; [lia|].
    rewrite bind_emit. cbn [fst filter is_post]. specialize (IH (S a)).
    cbn [length]. lia.
  - lia.
Qed.

(** The [except] of the notification catches whatever the loop raises. *)
Lemma notify_never_raises (w : World) (url payload : JSON) :
  snd (notify_evaluation_server w url payload) = inl tt.
Proof.
  unfold notify_evaluation_server.
  destruct (Py.truthy url); [|reflexivity].
  destruct (post_loop w url payload 0 delays) as [tr [[]|e]]; reflexivity.
Qed.

Lemma serialisable_payload (cfg : Config) (f : Fields) (commit_sha : string) :
  Py.serialisable (payload_of cfg f commit_sha) = Py.serialisable (nonce f).
Proof.
  unfold payload_of, response_payload_of. cbn [Py.serialisable forallb snd andb].
  now rewrite andb_true_r.
Qed.

Lemma respond_spec (cfg : Config) (w : World) (f : Fields) (commit_sha : string) :
  respond cfg w f commit_sha =
  (fst (notify_evaluation_server w (evaluation_url f) (payload_of cfg f commit_sha)),
   if Py.serialisable (nonce f)
   then inl (Response 200 (payload_of cfg f commit_sha))
   else inr (Unhandled ValueError)).
Proof.
  unfold respond. fold (payload_of cfg f commit_sha).
  pose proof (notify_never_raises w (evaluation_url f) (payload_of cfg f commit_sha))
    as Hn.
  destruct (notify_evaluation_server _ _ _) as [tr r]. simpl in Hn. subst r.
  rewrite bind_value. unfold JSONResponse. rewrite serialisable_payload.
  destruct (Py.serialisable (nonce f)); simpl; now rewrite app_nil_r.
Qed.

Lemma finish_final (cfg : Config) (f : Fields) (commit_sha : string)
  (tr : list Event) :
  finish (tr, if Py.serialisable (nonce f)
              then inl (Response 200 (payload_of cfg f commit_sha))
              else inr (Unhandled ValueError)) =
  (tr, final_outcome (payload_of cfg f commit_sha)).
Proof.
  unfold final_outcome. rewrite serialisable_payload.
  now destruct (Py.serialisable (nonce f)).
Qed.

(** ** From Prepare Repo to the response *)

Lemma deploy_starts_with_makedirs (cfg : Config) (w : World) (f : Fields) :
  exists rest, fst (deploy cfg w f) = EMakedirs (repo_path_of cfg f) :: rest.
Proof.
  unfold deploy, makedirs. rewrite bind_emit.
  destruct (makedirs_ok w (repo_path_of cfg f)); cbn [bind ret raise leave fst snd];
    [| eexists; reflexivity].
  destruct (bind _ _) as [tr r]. eexists. reflexivity.
Qed.

Lemma deploy_generation_fails (cfg : Config) (w : World) (f : Fields) (e : string) :
  makedirs_ok w (repo_path_of cfg f) = true ->
  generation_error w = Some e ->
  deploy cfg w f =
  ([EMakedirs (repo_path_of cfg f);
    EPrint ("🤖 Generating code for: " ++ task f);
    EChat "gpt-5" "You are a skilled web app generator." (prompt (brief f)) 1500],
   inr (Response 500 (error_body ("LLM generation failed: " ++ e)))).
Proof.
  intros Hdir Hgen. unfold deploy, makedirs, generate_app_from_brief, generation_error in *.
  rewrite bind_emit, Hdir.
  destruct (chat w) as [[content|]|msg]; try discriminate;
    injection Hgen as <-; reflexivity.
Qed.

Lemma deploy_materialises (cfg : Config) (w : World) (f : Fields) (content : string) :
  materialises cfg w f content ->
  deploy cfg w f =
  ((materialise_events cfg f (PyStr.strip content) ++
    fst (publish_and_respond cfg w f))%list,
   snd (publish_and_respond cfg w f)).
Proof.
  intros (Hdir & Hchat & Hwrite).
  unfold project_files in Hwrite. cbn [forallb fst] in Hwrite.
  rewrite !andb_true_iff in Hwrite. destruct Hwrite as (Hi & Hr & Hl & _).
  unfold deploy, makedirs, generate_app_from_brief, write_files, write_file,
    materialise_events, project_files.
  fold (publish_and_respond cfg w f).
  rewrite bind_emit, Hdir, Hchat.
  cbn [bind ret catch emit fst snd app map]. rewrite Hi, Hr, Hl.
  cbn [bind ret catch emit fst snd app map].
  now destruct (publish_and_respond cfg w f).
Qed.

Lemma publish_and_respond_fails (cfg : Config) (w : World) (f : Fields)
  (c : list string * option string) :
  first_failure w (publish_commands cfg f) = Some c ->
  publish_and_respond cfg w f =
  (map run_event (firstn (commands_run w (publish_commands cfg f))
                         (publish_commands cfg f)),
   inr (Unhandled (command_error w c))).
Proof.
  intros Hfail. unfold publish_and_respond.
  pose proof (publish_trace cfg w f) as Htr.
  pose proof (publish_fails cfg w f c Hfail) as Hres.
  destruct (publish cfg w f) as [tr r]. simpl in Htr, Hres. now subst.
Qed.

Lemma publish_and_respond_succeeds (cfg : Config) (w : World) (f : Fields)
  (out : string) :
  publishes cfg w f out ->
  publish_and_respond cfg w f =
  ((map run_event (publish_commands cfg f) ++
    fst (notify_evaluation_server w (evaluation_url f)
           (payload_of cfg f (PyStr.strip out))))%list,
   if Py.serialisable (nonce f)
   then inl (Response 200 (payload_of cfg f (PyStr.strip out)))
   else inr (Unhandled ValueError)).
Proof.
  intros Hpub. unfold publish_and_respond.
  now rewrite (publish_succeeds _ _ _ _ Hpub), bind_value, respond_spec.
Qed.

(** The whole run of a request that nothing stops before the response is
    built. *)
Lemma handle_request_succeeds (cfg : Config) (w : World) (kvs : list (string * JSON))
  (e0 t0 : string) (r : Z) (content out : string) :
  authenticated cfg kvs ->
  request_email kvs = JStr e0 ->
  request_task w kvs = JStr t0 ->
  Py.int (request_round kvs) = Ok r ->
  materialises cfg w (fields_of kvs e0 t0 r) content ->
  publishes cfg w (fields_of kvs e0 t0 r) out ->
  handle_request cfg w (Some (JObj kvs)) =
  ((materialise_events cfg (fields_of kvs e0 t0 r) (PyStr.strip content) ++
    map run_event (publish_commands cfg (fields_of kvs e0 t0 r)) ++
    fst (notify_evaluation_server w (field kvs "evaluation_url" (JStr ""))
           (payload_of cfg (fields_of kvs e0 t0 r) (PyStr.strip out))))%list,
   final_outcome (payload_of cfg (fields_of kvs e0 t0 r) (PyStr.strip out))).
Proof.
  intros Ha He Ht Hr Hmat Hpub.
  rewrite (handle_request_deploys _ _ _ _ _ _ Ha He Ht Hr).
  rewrite (deploy_materialises _ _ _ _ Hmat).
  rewrite (publish_and_respond_succeeds _ _ _ _ Hpub).
  cbn [fst snd]. apply finish_final.
Qed.

(** ** The commands of a run *)

Lemma run_events_are_commands (cs : list (list string * option string)) :
  filter version_control_effect (map run_event cs) = map run_event cs.
Proof. induction cs as [|c cs IH]; simpl; [reflexivity | now rewrite IH]. Qed.

Lemma post_loop_no_commands (w : World) (url payload : JSON) (ds : list Z) :
  forall a : nat,
  filter version_control_effect (fst (post_loop w url payload a ds)) = [].
Proof.
  induction ds as [|d ds IH]; intros a; [reflexivity|].
  cbn [post_loop]. unfold requests_post. rewrite bind_emit.
  destruct (post w a) as [c|msg]; cbn [fst snd ret bind leave app filter
                                         version_control_effect]; [| reflexivity].
  destruct (Z.eqb c 200); cbn [fst snd ret]; [reflexivity|].
  rewrite bind_emit. cbn [fst filter version_control_effect]. apply IH.
Qed.

Lemma notify_no_commands (w : World) (url payload : JSON) :
  filter version_control_effect (fst (notify_evaluation_server w url payload)) = [].
Proof.
  unfold notify_evaluation_server.
  destruct (Py.truthy url); [| reflexivity].
  pose proof (post_loop_no_commands w url payload delays 0) as Hloop.
  destruct (post_loop w url payload 0 delays) as [tr [[]|e]];
    cbn [catch fst emit] in *; [exact Hloop|].
  rewrite filter_app, Hloop. reflexivity.
Qed.

Lemma all_commands_ok_publishes (cfg : Config) (w : World) (f : Fields) :
  forallb (command_ok w) (publish_commands cfg f) = true ->
  exists out, publishes cfg w f out.
Proof.
  intros Hall. unfold publishes. rewrite Hall.
  revert Hall. unfold publish_commands, forallb, command_ok. cbn [fst snd].
  destruct (run_result w ["git"; "rev-parse"; "HEAD"] (Some (repo_path_of cfg f)))
    as [out|e]; [eauto|].
  rewrite !andb_false_r. discriminate.
Qed.

Lemma first_failure_none (w : World) (cs : list (list string * option string)) :
  forallb (command_ok w) cs = false -> exists c, first_failure w cs = Some c.
Proof.
  intros Hall. pose proof (first_failure_spec w cs) as Hspec.
  destruct (first_failure w cs) as [c|]; [eauto | congruence].
Qed.

(** Whatever happens, the commands a run executes are the first ones of
    [publish_commands], in their order. *)
Lemma deploy_commands (cfg : Config) (w : World) (f : Fields) :
  exists n : nat,
    filter version_control_effect (fst (deploy cfg w f)) =
    map run_event (firstn n (publish_commands cfg f)).
Proof.
  destruct (makedirs_ok w (repo_path_of cfg f)) eqn:Hdir.
  2:{ exists 0%nat. unfold deploy, makedirs. rewrite bind_emit, Hdir. reflexivity. }
  destruct (generation_error w) as [e|] eqn:Hgen.
  { exists 0%nat. now rewrite (deploy_generation_fails cfg w f e Hdir Hgen). }
  assert (Hchat : exists content, chat w = ChatContent (Some content)).
  { unfold generation_error in Hgen.
    destruct (chat w) as [[content|]|msg]; try discriminate. eauto. }
  destruct Hchat as [content Hchat].
  destruct (forallb (fun pc => write_ok w (fst pc)) (project_files cfg f "")) eqn:Hw.
  - rewrite (deploy_materialises cfg w f content (conj Hdir (conj Hchat Hw))).
    cbn [fst]. rewrite filter_app.
    destruct (forallb (command_ok w) (publish_commands cfg f)) eqn:Hall.
    + destruct (all_commands_ok_publishes cfg w f Hall) as [out Hpub].
      rewrite (publish_and_respond_succeeds cfg w f out Hpub). cbn [fst].
      rewrite filter_app, notify_no_commands, run_events_are_commands, app_nil_r.
      exists 9%nat. reflexivity.
    + destruct (first_failure_none w _ Hall) as [c Hc].
      rewrite (publish_and_respond_fails cfg w f c Hc). cbn [fst].
      rewrite run_events_are_commands. eexists. reflexivity.
  - exists 0%nat. revert Hw.
    unfold deploy, makedirs, generate_app_from_brief, write_files, write_file,
      project_files, forallb.
    rewrite bind_emit, Hdir, Hchat. cbn [bind ret catch emit fst snd app map].
    destruct (write_ok w (PyStr.path_join (repo_path_of cfg f) "index.html"));
      [| reflexivity].
    destruct (write_ok w (PyStr.path_join (repo_path_of cfg f) "README.md"));
      [| reflexivity].
    destruct (write_ok w (PyStr.path_join (repo_path_of cfg f) "LICENSE"));
      [discriminate | reflexivity].
Qed.

(** ** The Notification Dispatcher *)

(** C1, as the code has it.  Given a callback URL, the dispatcher attempts
    the POST at most 5 times; it stops at the first attempt answered by a
    200, with no wait after it; and every attempt answered by another status
    is followed by its wait, the fifth included: when the five attempts are
    all answered by a status other than 200, exactly five attempts occur, with
    waits of 1, 2, 4 and 8 between them and a wait of 16 after the fifth. *)
Theorem dispatcher_retry_policy (w : World) (url payload : JSON) :
  Py.truthy url = true ->
  let tr := fst (notify_evaluation_server w url payload) in
  (attempts tr <= 5)%nat /\
  (forall k : nat,
      (k < 5)%nat ->
      (forall i : nat, (i < k)%nat -> non_200 w i) ->
      post w k = PostStatus 200 ->
      tr = (failed_attempts url payload (firstn k delays) ++
            [EPost url payload 10])%list) /\
  ((forall i : nat, (i < 5)%nat -> non_200 w i) ->
   tr = [EPost url payload 10; ESleep 1;
         EPost url payload 10; ESleep 2;
         EPost url payload 10; ESleep 4;
         EPost url payload 10; ESleep 8;
         EPost url payload 10; ESleep 16] /\
   attempts tr = 5%nat).
Proof.
  intros Hurl tr. subst tr. unfold notify_evaluation_server. rewrite Hurl.
  split; [| split].
  - pose proof (post_loop_attempts w url payload delays 0) as Hle.
    destruct (post_loop w url payload 0 delays) as [tr [[]|e]];
      cbn [catch fst] in *; [exact Hle|].
    unfold attempts in *. cbn [emit fst]. rewrite filter_app, length_app.
    cbn [filter is_post length]. simpl in Hle. lia.
  - intros k Hk Hbefore H200.
    rewrite (post_loop_prefix w url payload delays 0 k); [| exact Hk | exact Hbefore].
    cbn [Nat.add].
    assert (Hskip : exists d rest, skipn k delays = d :: rest).
    { unfold delays.
      do 5 (destruct k as [|k]; [cbn [skipn]; eauto |]). lia. }
    destruct Hskip as (d & rest & ->).
    cbn [post_loop]. unfold requests_post. rewrite bind_emit, H200.
    reflexivity.
  - intros Hall.
    rewrite (post_loop_all_fail w url payload delays 0 Hall). split; reflexivity.
Qed.

Lemma dispatcher_retry_policy_witness :
  fst (notify_evaluation_server (Sample.world Sample.four_failures_then_200)
         Sample.url Sample.payload) =
  [EPost Sample.url Sample.payload 10; ESleep 1;
   EPost Sample.url Sample.payload 10; ESleep 2;
   EPost Sample.url Sample.payload 10; ESleep 4;
   EPost Sample.url Sample.payload 10; ESleep 8;
   EPost Sample.url Sample.payload 10] /\
  attempts (fst (notify_evaluation_server (Sample.world Sample.always_500)
                   Sample.url Sample.payload)) = 5%nat.
Proof.
  split.
  - apply (proj1 (proj2 (dispatcher_retry_policy
                           (Sample.world Sample.four_failures_then_200)
                           Sample.url Sample.payload eq_refl)) 4%nat).
    + lia.
    + intros i Hi. exists 503. split; [| discriminate].
      do 4 (destruct i as [|i]; [reflexivity|]). lia.
    + reflexivity.
  - apply (proj2 (proj2 (dispatcher_retry_policy
                           (Sample.world Sample.always_500)
                           Sample.url Sample.payload eq_refl))).
    intros i _. exists 500. split; [reflexivity | discriminate].
Defined.

(** C1 as the specification words it does not hold: an endpoint that answers 500 to every
    attempt gets five attempts, and the dispatcher then waits 16 more
    time-units after the fifth, the last one. *)
Lemma dispatcher_waits_after_last_attempt :
  let tr := fst (notify_evaluation_server (Sample.world Sample.always_500)
                   Sample.url Sample.payload) in
  (forall i : nat, non_200 (Sample.world Sample.always_500) i) /\
  attempts tr = 5%nat /\
  tr = [EPost Sample.url Sample.payload 10; ESleep 1;
        EPost Sample.url Sample.payload 10; ESleep 2;
        EPost Sample.url Sample.payload 10; ESleep 4;
        EPost Sample.url Sample.payload 10; ESleep 8;
        EPost Sample.url Sample.payload 10; ESleep 16] /\
  ends_with_wait tr.
Proof.
  split; [| split; [| split]].
  - intros i. exists 500. split; [reflexivity | discriminate].
  - reflexivity.
  - reflexivity.
  - exists (removelast (fst (notify_evaluation_server
                                (Sample.world Sample.always_500)
                                Sample.url Sample.payload))), 16.
    reflexivity.
Qed.

(** C5, as the code has it.  The [try] encloses the whole loop: a transport
    failure at any attempt ends the notification at once.  The attempt that
    raises is followed by no wait and no further attempt; the exception is
    caught and logged, and the dispatcher returns to the handler. *)
Theorem transport_failure_ends_notification (w : World) (url payload : JSON)
  (k : nat) (msg : string) :
  Py.truthy url = true ->
  (k < 5)%nat ->
  (forall i : nat, (i < k)%nat -> non_200 w i) ->
  post w k = PostRaise msg ->
  notify_evaluation_server w url payload =
  ((failed_attempts url payload (firstn k delays) ++
    [EPost url payload 10;
     EPrint ("⚠️ Evaluation callback failed: " ++ msg)])%list,
   inl tt).
Proof.
  intros Hurl Hk Hbefore Hraise.
  unfold notify_evaluation_server. rewrite Hurl.
  rewrite (post_loop_prefix w url payload delays 0 k); [| exact Hk | exact Hbefore].
  cbn [Nat.add].
  assert (Hskip : exists d rest, skipn k delays = d :: rest).
  { unfold delays.
    do 5 (destruct k as [|k]; [cbn [skipn]; eauto |]). lia. }
  destruct Hskip as (d & rest & ->).
  cbn [post_loop]. unfold requests_post. rewrite bind_emit, Hraise.
  cbn [leave bind fst snd catch emit]. now rewrite <- app_assoc.
Qed.

Lemma transport_failure_ends_notification_witness :
  notify_evaluation_server (Sample.world Sample.connection_refused)
    Sample.url Sample.payload =
  ([EPost Sample.url Sample.payload 10;
    EPrint "⚠️ Evaluation callback failed: Connection refused"],
   inl tt).
Proof.
  apply (transport_failure_ends_notification
           (Sample.world Sample.connection_refused) Sample.url Sample.payload
           0 "Connection refused").
  - reflexivity.
  - lia.
  - intros i Hi. lia.
  - reflexivity.
Defined.

(** C5 as the specification words it does not hold: when the first attempt raises, no
    backoff wait and no second attempt follow. *)
Lemma transport_failure_is_not_retried :
  let w := Sample.world Sample.connection_refused in
  let tr := fst (notify_evaluation_server w Sample.url Sample.payload) in
  post w 0 = PostRaise "Connection refused" /\
  attempts tr = 1%nat /\
  filter is_sleep tr = [].
Proof. repeat split. Qed.

(** ** The response and the notification *)

(** C6, as the code has it.  The dispatcher never raises to the handler,
    and what the handler ends with does not depend on what the callback
    endpoint does: once the commit hash is read back, the payload computed
    before the notification is returned unmodified with status 200 whenever
    it can be serialised, that is whenever the echoed nonce holds no infinity
    and no NaN; when it cannot, building the final response raises
    [ValueError], again whatever the callback did.  A request without
    [evaluation_url] makes no attempt at all. *)
Theorem notification_never_alters_response (cfg : Config) (w : World)
  (kvs : list (string * JSON)) (e0 t0 : string) (r : Z) (content out : string) :
  authenticated cfg kvs ->
  request_email kvs = JStr e0 ->
  request_task w kvs = JStr t0 ->
  Py.int (request_round kvs) = Ok r ->
  materialises cfg w (fields_of kvs e0 t0 r) content ->
  publishes cfg w (fields_of kvs e0 t0 r) out ->
  let f := fields_of kvs e0 t0 r in
  let response_payload := payload_of cfg f (PyStr.strip out) in
  let before := (materialise_events cfg f (PyStr.strip content) ++
                 map run_event (publish_commands cfg f))%list in
  (forall (p : nat -> PostOutcome) (url payload : JSON),
      snd (notify_evaluation_server (set_post w p) url payload) = inl tt) /\
  (forall p : nat -> PostOutcome,
      handle_request cfg (set_post w p) (Some (JObj kvs)) =
      ((before ++ fst (notify_evaluation_server (set_post w p)
                         (evaluation_url f) response_payload))%list,
       final_outcome response_payload)) /\
  (Py.serialisable (field kvs "nonce" JNull) = true ->
   forall p : nat -> PostOutcome,
     snd (handle_request cfg (set_post w p) (Some (JObj kvs))) =
     Response 200 response_payload) /\
  (Py.serialisable (field kvs "nonce" JNull) = false ->
   forall p : nat -> PostOutcome,
     snd (handle_request cfg (set_post w p) (Some (JObj kvs))) =
     Unhandled ValueError) /\
  (Py.assoc "evaluation_url" kvs = None ->
   forall p : nat -> PostOutcome,
     handle_request cfg (set_post w p) (Some (JObj kvs)) =
     (before, final_outcome response_payload)).
Proof.
  intros Ha He Ht Hr Hmat Hpub f response_payload before.
  assert (Hrun : forall p : nat -> PostOutcome,
             handle_request cfg (set_post w p) (Some (JObj kvs)) =
             ((before ++ fst (notify_evaluation_server (set_post w p)
                                (evaluation_url f) response_payload))%list,
              final_outcome response_payload)).
  { intros p.
    rewrite (handle_request_succeeds cfg (set_post w p) kvs e0 t0 r content out
               Ha He Ht Hr Hmat Hpub).
    subst before. now rewrite <- app_assoc. }
  assert (Hnonce : Py.serialisable response_payload =
                   Py.serialisable (field kvs "nonce" JNull))
    by apply serialisable_payload.
  split; [| split; [| split; [| split]]].
  - intros p url payload. apply notify_never_raises.
  - exact Hrun.
  - intros Hfinite p. rewrite Hrun. cbn [snd]. unfold final_outcome.
    now rewrite Hnonce, Hfinite.
  - intros Hnan p. rewrite Hrun. cbn [snd]. unfold final_outcome.
    now rewrite Hnonce, Hnan.
  - intros Hurl p. rewrite Hrun.
    unfold notify_evaluation_server, f, fields_of, field. cbn [evaluation_url].
    rewrite Hurl. cbn [Py.truthy String.eqb negb fst ret].
    now rewrite app_nil_r.
Qed.

Lemma notification_never_alters_response_witness :
  handle_request Sample.cfg (Sample.world Sample.connection_refused)
    (Some (JObj Sample.request_with_callback)) =
  ((materialise_events Sample.cfg
      (fields_of Sample.request_with_callback "student@example.com" "Quiz App" 1)
      "<html>..</html>" ++
    map run_event
      (publish_commands Sample.cfg
         (fields_of Sample.request_with_callback "student@example.com" "Quiz App" 1)) ++
    [EPost Sample.url Sample.payload 10;
     EPrint "⚠️ Evaluation callback failed: Connection refused"])%list,
   Response 200 Sample.payload).
Proof.
  apply (proj1 (proj2 (notification_never_alters_response
    Sample.cfg (Sample.world Sample.always_500) Sample.request_with_callback
    "student@example.com" "Quiz App" 1 "<html>..</html>" ("abc123" ++ nl)
    eq_refl eq_refl eq_refl eq_refl
    (conj eq_refl (conj eq_refl eq_refl)) (conj eq_refl eq_refl)))
    Sample.connection_refused).
Defined.

(** C6 as the specification words it does not hold: a request whose nonce
    is infinite and which names no callback is generated and published, all
    fifteen calls being made and none of them an attempt, and the handler
    then leaves with [ValueError] where the success response was to be
    returned with status 200. *)
Lemma infinite_nonce_is_not_answered :
  let f := fields_of Sample2.request_infinite_nonce "student@example.com" "Quiz App" 1 in
  let run := handle_request Sample.cfg (Sample.world Sample.always_500)
               (Some (JObj Sample2.request_infinite_nonce)) in
  publishes Sample.cfg (Sample.world Sample.always_500) f ("abc123" ++ nl) /\
  fst run = (materialise_events Sample.cfg f "<html>..</html>" ++
             map run_event (publish_commands Sample.cfg f))%list /\
  attempts (fst run) = 0%nat /\
  snd run = Unhandled ValueError.
Proof. split; [split; reflexivity | split; [| split]; reflexivity]. Qed.

Lemma commands_run_first_failure (w : World) (cs : list (list string * option string)) :
  forall (i : nat) (c : list string * option string),
  nth_error cs i = Some c ->
  command_ok w c = false ->
  (forall (j : nat) (c' : list string * option string),
      (j < i)%nat -> nth_error cs j = Some c' -> command_ok w c' = true) ->
  commands_run w cs = S i /\ first_failure w cs = Some c.
Proof.
  induction cs as [|c0 cs IH]; intros i c Hi Hfail Hbefore.
  - destruct i; discriminate.
  - destruct i as [|i]; cbn [nth_error] in Hi.
    + injection Hi as ->. cbn [commands_run first_failure]. now rewrite Hfail.
    + cbn [commands_run first_failure].
      rewrite (Hbefore 0%nat c0); [| lia | reflexivity].
      destruct (IH i c Hi Hfail) as [Hn Hall].
      * intros j c' Hj Hc'. apply (Hbefore (S j) c'); [lia | exact Hc'].
      * now rewrite Hn, Hall.
Qed.

(** The exception of a command that fails. *)
Lemma command_error_spec (w : World) (c : list string * option string) :
  command_ok w c = false ->
  command_error w c =
  if nul_in_call (fst c) (snd c) then ValueError
  else match subprocess w (fst c) with
       | Completed _ _ => CalledProcessError
       | NotStarted not_found => if not_found then FileNotFoundError else OSError
       end.
Proof.
  unfold command_ok, command_error, run_result.
  destruct (nul_in_call (fst c) (snd c)); [reflexivity |].
  destruct (subprocess w (fst c)) as [returncode stdout | not_found];
    [| reflexivity].
  destruct (Z.eqb returncode 0); [discriminate | reflexivity].
Qed.

(** ** The Version Control Publisher *)

(** C2, as the code has it.  Once the files of an authenticated request are
    written, the handler runs the publishing commands in the order of the
    eight steps: init, default branch, committer name and committer email -
    the request's email after HTML escaping -, stage, commit, creation of the
    public remote repository with push, static hosting on the root of the
    default branch, commit hash.  A command that fails is the last event of
    the run: the handler leaves with the exception of that command, and no
    later command and no notification follow.  The exception is
    [ValueError] for a NUL in the call, [FileNotFoundError] or another
    [OSError] for a program that cannot be started, [CalledProcessError] for
    an exit status other than zero.  When no command fails, all of them run,
    nothing after them is a command, and the hash read back is the one of
    the payload the response is built from. *)
Theorem publisher_steps_in_order (cfg : Config) (w : World)
  (kvs : list (string * JSON)) (e0 t0 : string) (r : Z) (content : string) :
  authenticated cfg kvs ->
  request_email kvs = JStr e0 ->
  request_task w kvs = JStr t0 ->
  Py.int (request_round kvs) = Ok r ->
  materialises cfg w (fields_of kvs e0 t0 r) content ->
  let f := fields_of kvs e0 t0 r in
  let repo_path := repo_path_of cfg f in
  let repo_name := repo_name_of f in
  let cmds := publish_commands cfg f in
  let written := materialise_events cfg f (PyStr.strip content) in
  cmds =
    [(["git"; "init"], Some repo_path);
     (["git"; "branch"; "-M"; "main"], Some repo_path);
     (["git"; "config"; "user.name"; "AutoBot"], Some repo_path);
     (["git"; "config"; "user.email"; PyStr.html_escape e0], Some repo_path);
     (["git"; "add"; "."], Some repo_path);
     (["git"; "commit"; "-m"; "Initial commit for " ++ PyStr.html_escape t0],
      Some repo_path);
     (["gh"; "repo"; "create"; repo_name;
       "--public"; "--source"; repo_path; "--push"; "--confirm"], None);
     (["gh"; "api"; "repos/" ++ GITHUB_USERNAME cfg ++ "/" ++ repo_name ++ "/pages";
       "-f"; "source.branch=main"; "-f"; "source.path=/"], None);
     (["git"; "rev-parse"; "HEAD"], Some repo_path)] /\
  (forall (i : nat) (c : list string * option string),
      nth_error cmds i = Some c ->
      command_ok w c = false ->
      (forall (j : nat) (c' : list string * option string),
          (j < i)%nat -> nth_error cmds j = Some c' -> command_ok w c' = true) ->
      handle_request cfg w (Some (JObj kvs)) =
      ((written ++ map run_event (firstn (S i) cmds))%list,
       Unhandled (command_error w c))) /\
  (forallb (command_ok w) cmds = true ->
   exists out : string,
     run_result w ["git"; "rev-parse"; "HEAD"] (Some repo_path) = Ok out /\
     let response_payload := payload_of cfg f (PyStr.strip out) in
     let notification :=
       fst (notify_evaluation_server w (evaluation_url f) response_payload) in
     handle_request cfg w (Some (JObj kvs)) =
     ((written ++ map run_event cmds ++ notification)%list,
      final_outcome response_payload) /\
     filter version_control_effect notification = [] /\
     Py.assoc "commit_sha" (match response_payload with
                            | JObj fields => fields
                            | _ => []
                            end) = Some (JStr (PyStr.strip out))) /\
  (forall c : list string * option string,
      command_ok w c = false ->
      command_error w c =
      if nul_in_call (fst c) (snd c) then ValueError
      else match subprocess w (fst c) with
           | Completed _ _ => CalledProcessError
           | NotStarted not_found => if not_found then FileNotFoundError else OSError
           end).
Proof.
  intros Ha He Ht Hr Hmat f repo_path repo_name cmds written.
  split; [reflexivity | split; [| split; [| apply command_error_spec]]].
  - intros i c Hi Hfail Hbefore.
    destruct (commands_run_first_failure w cmds i c Hi Hfail Hbefore) as [Hn Hfirst].
    rewrite (handle_request_deploys _ _ _ _ _ _ Ha He Ht Hr).
    rewrite (deploy_materialises _ _ _ _ Hmat).
    fold f. rewrite (publish_and_respond_fails cfg w f c Hfirst).
    fold cmds. rewrite Hn. reflexivity.
  - intros Hall.
    destruct (all_commands_ok_publishes cfg w f Hall) as [out Hpub].
    exists out. split; [exact (proj2 Hpub) |].
    rewrite (handle_request_succeeds _ _ _ _ _ _ _ _ Ha He Ht Hr Hmat Hpub).
    split; [reflexivity | split; [apply notify_no_commands | reflexivity]].
Qed.

Lemma publisher_steps_in_order_witness :
  handle_request Sample.cfg Sample.world_name_taken (Some (JObj Sample.request)) =
  ((materialise_events Sample.cfg
      (fields_of Sample.request "student@example.com" "Quiz App" 1)
      "<html>..</html>" ++
    [ERun ["git"; "init"] (Some "./workspace/quiz-app-1");
     ERun ["git"; "branch"; "-M"; "main"] (Some "./workspace/quiz-app-1");
     ERun ["git"; "config"; "user.name"; "AutoBot"] (Some "./workspace/quiz-app-1");
     ERun ["git"; "config"; "user.email"; "student@example.com"]
       (Some "./workspace/quiz-app-1");
     ERun ["git"; "add"; "."] (Some "./workspace/quiz-app-1");
     ERun ["git"; "commit"; "-m"; "Initial commit for Quiz App"]
       (Some "./workspace/quiz-app-1");
     ERun ["gh"; "repo"; "create"; "quiz-app-1";
           "--public"; "--source"; "./workspace/quiz-app-1"; "--push"; "--confirm"]
       None])%list,
   Unhandled CalledProcessError).
Proof.
  apply (proj1 (proj2 (publisher_steps_in_order
    Sample.cfg Sample.world_name_taken Sample.request
    "student@example.com" "Quiz App" 1 "<html>..</html>"
    eq_refl eq_refl eq_refl eq_refl (conj eq_refl (conj eq_refl eq_refl))))
    6%nat
    (["gh"; "repo"; "create"; "quiz-app-1";
      "--public"; "--source"; "./workspace/quiz-app-1"; "--push"; "--confirm"], None)).
  - reflexivity.
  - reflexivity.
  - intros j c' Hj Hc'.
    do 6 (destruct j as [|j]; [injection Hc' as <-; reflexivity |]).
    lia.
Defined.

(** A NUL in the email stops the run at the command that configures the
    committer email, and a missing [git] at the first command. *)
Example publishing_exceptions_examples :
  handle_request Sample.cfg (Sample.world Sample.always_500)
    (Some (JObj Sample2.request_nul_email)) =
  (firstn 10 (pipeline_events Sample.cfg (Sample.world Sample.always_500)
                (fields_of Sample2.request_nul_email
                   (String PyStr.nul "@example.com") "Quiz App" 1)),
   Unhandled ValueError) /\
  handle_request Sample.cfg Sample2.world_no_git (Some (JObj Sample.request)) =
  (firstn 7 (pipeline_events Sample.cfg Sample2.world_no_git
               (fields_of Sample.request "student@example.com" "Quiz App" 1)),
   Unhandled FileNotFoundError).
Proof. split; reflexivity. Qed.

(** C2 as the specification words it does not hold: the committer email the
    handler configures is not the request's email but its escaped form; for
    the request whose email is [a<b>@example.com] no command of the run
    carries that text. *)
Lemma committer_email_is_escaped :
  let tr := fst (handle_request Sample.cfg (Sample.world Sample.always_500)
                   (Some (JObj Sample.request_markup))) in
  Py.assoc "email" Sample.request_markup = Some (JStr "a<b>@example.com") /\
  In (ERun ["git"; "config"; "user.email"; "a&lt;b&gt;@example.com"]
        (Some "./workspace/r&amp;d-2")) tr /\
  forall cwd, ~ In (ERun ["git"; "config"; "user.email"; "a<b>@example.com"] cwd) tr.
Proof.
  split; [reflexivity | split].
  - vm_compute. do 9 right. left. reflexivity.
  - intros cwd Hin. vm_compute in Hin.
    repeat (destruct Hin as [Hin | Hin]; [discriminate Hin |]).
    exact Hin.
Qed.

(** ** Rejected requests *)

(** A decoded body that is not an object has no [get]: the handler leaves
    with the attribute error, before any side effect. *)
Lemma non_object_body_is_unhandled (cfg : Config) (w : World) (data : JSON) :
  (forall kvs, data <> JObj kvs) ->
  handle_request cfg w (Some data) = ([], Unhandled AttributeError).
Proof.
  intros Hdata. destruct data; try reflexivity. now contradiction (Hdata fields).
Qed.

(** C3, as the code has it.  A body that cannot be decoded is answered by
    400; a decoded object whose secret field is missing or is not the shared
    credential is answered by 403; a decoded body that is not an object - a
    list, a number, a string, [null] - is answered by neither: the handler
    leaves with an uncaught [AttributeError].  In all three cases the trace
    of the run is empty: no directory, no generator call, no file, no
    command, no notification. *)
Theorem rejected_requests_have_no_side_effect (cfg : Config) (w : World) :
  handle_request cfg w None = ([], Response 400 (error_body "Invalid JSON")) /\
  (forall kvs : list (string * JSON),
      Py.assoc "secret" kvs <> Some (JStr (STORED_SECRET cfg)) ->
      handle_request cfg w (Some (JObj kvs)) =
      ([], Response 403 (error_body "Invalid secret"))) /\
  (forall data : JSON,
      (forall kvs, data <> JObj kvs) ->
      handle_request cfg w (Some data) = ([], Unhandled AttributeError)).
Proof.
  split; [reflexivity | split; [| apply non_object_body_is_unhandled]].
  intros kvs Hsecret. unfold handle_request, handle_data.
  rewrite get_obj. unfold field.
  assert (Hne : Py.eq_str
                  match Py.assoc "secret" kvs with Some v => v | None => JNull end
                  (STORED_SECRET cfg) = false).
  { destruct (Py.assoc "secret" kvs) as [[| | | |s| |]|]; try reflexivity.
    simpl. destruct (String.eqb_spec s (STORED_SECRET cfg)) as [->|]; [| reflexivity].
    now contradiction Hsecret. }
  cbn [lift bind ret fst snd app]. rewrite Hne. reflexivity.
Qed.

Lemma rejected_requests_have_no_side_effect_witness :
  handle_request Sample.cfg (Sample.world Sample.always_500)
    (Some (JObj Sample.request_wrong_secret)) =
  ([], Response 403 (error_body "Invalid secret")).
Proof.
  apply (proj1 (proj2 (rejected_requests_have_no_side_effect
                         Sample.cfg (Sample.world Sample.always_500)))
               Sample.request_wrong_secret).
  simpl. discriminate.
Defined.

(** C3 as the specification words it does not hold: the body [[1, 2]] is
    parseable structured data, and it is answered by neither 400 nor 403. *)
Lemma list_body_is_not_answered :
  handle_request Sample.cfg (Sample.world Sample.always_500) (Some Sample2.body_list) =
  ([], Unhandled AttributeError).
Proof. reflexivity. Qed.

(** ** A failing generator *)

(** C4, as the code has it.  When the generator fails for an authenticated
    request, the handler answers 500 and has written no file, run no
    command and made no callback attempt; the project directory, though, was
    created before the generator was called. *)
Theorem generation_failure_is_500 (cfg : Config) (w : World)
  (kvs : list (string * JSON)) (e0 t0 : string) (r : Z) (e : string) :
  authenticated cfg kvs ->
  request_email kvs = JStr e0 ->
  request_task w kvs = JStr t0 ->
  Py.int (request_round kvs) = Ok r ->
  makedirs_ok w (repo_path_of cfg (fields_of kvs e0 t0 r)) = true ->
  generation_error w = Some e ->
  let f := fields_of kvs e0 t0 r in
  handle_request cfg w (Some (JObj kvs)) =
  ([EMakedirs (repo_path_of cfg f);
    EPrint ("🤖 Generating code for: " ++ task f);
    EChat "gpt-5" "You are a skilled web app generator." (prompt (brief f)) 1500],
   Response 500 (error_body ("LLM generation failed: " ++ e))).
Proof.
  intros Ha He Ht Hr Hdir Hgen f.
  rewrite (handle_request_deploys _ _ _ _ _ _ Ha He Ht Hr).
  now rewrite (deploy_generation_fails _ _ _ _ Hdir Hgen).
Qed.

Lemma generation_failure_is_500_witness :
  handle_request Sample.cfg Sample.world_generation_fails (Some (JObj Sample.request)) =
  ([EMakedirs "./workspace/quiz-app-1";
    EPrint "🤖 Generating code for: Quiz App";
    EChat "gpt-5" "You are a skilled web app generator."
      (prompt (JStr "a quiz app")) 1500],
   Response 500 (error_body "LLM generation failed: Connection error.")).
Proof.
  apply (generation_failure_is_500 Sample.cfg Sample.world_generation_fails
           Sample.request "student@example.com" "Quiz App" 1 "Connection error.");
    reflexivity.
Defined.

(** C4 as the specification words it does not hold: the run of a request whose generator
    fails ends in a 500 and has a file-system side effect before it, the
    creation of the project directory. *)
Lemma generation_failure_after_directory_creation :
  let run := handle_request Sample.cfg Sample.world_generation_fails
               (Some (JObj Sample.request)) in
  generation_error Sample.world_generation_fails = Some "Connection error." /\
  snd run = Response 500 (error_body "LLM generation failed: Connection error.") /\
  In (EMakedirs "./workspace/quiz-app-1") (fst run) /\
  existsb file_system_effect (fst run) = true.
Proof.
  split; [reflexivity | split; [reflexivity | split; [| reflexivity]]].
  left. reflexivity.
Qed.

(** ** The project identity *)

Lemma in_firstn {A} (x : A) (n : nat) (l : list A) :
  In x (firstn n l) -> In x l.
Proof.
  revert l. induction n as [|n IH]; intros [|y l]; simpl; try tauto.
  intros [H | H]; [now left | right; now apply IH].
Qed.

Lemma fst_finish (m : M Outcome Outcome) : fst (finish m) = fst m.
Proof. now destruct m as [tr [o|o]]. Qed.

Lemma repo_name_is_project_identity (f : Fields) :
  repo_name_of f = project_identity (task f) (round_ f).
Proof. unfold repo_name_of, project_identity. apply lower_replace_space. Qed.

(** C7, as the code has it.  For every authenticated request whose fields
    are extracted, with [task] the request's task after HTML escaping - not
    the request's task itself - and [round] the converted round, the
    identity [lower(replace(task + "-" + round, " ", "-"))] names the
    directory the handler creates under the working directory, and every
    remote repository the handler creates; the creation command carries it
    whenever the run reaches that command.  The identity is also the one of
    the data model: lowercased, spaces replaced with hyphens. *)
Theorem project_identity_names_directory_and_repository (cfg : Config) (w : World)
  (kvs : list (string * JSON)) (e0 t0 : string) (r : Z) :
  authenticated cfg kvs ->
  request_email kvs = JStr e0 ->
  request_task w kvs = JStr t0 ->
  Py.int (request_round kvs) = Ok r ->
  let task := PyStr.html_escape t0 in
  let identity := PyStr.lower (PyStr.replace " " "-" (task ++ "-" ++ PyStr.of_int r)) in
  let directory := PyStr.path_join (WORK_DIR cfg) identity in
  let tr := fst (handle_request cfg w (Some (JObj kvs))) in
  identity = project_identity task r /\
  (exists rest, tr = EMakedirs directory :: rest) /\
  (forall (name : string) (args : list string) (cwd : option string),
      In (ERun ("gh" :: "repo" :: "create" :: name :: args) cwd) tr ->
      name = identity) /\
  (forall content : string,
      materialises cfg w (fields_of kvs e0 t0 r) content ->
      (forall c, In c (firstn 6 (publish_commands cfg (fields_of kvs e0 t0 r))) ->
                 command_ok w c = true) ->
      In (ERun ["gh"; "repo"; "create"; identity;
                "--public"; "--source"; directory; "--push"; "--confirm"] None) tr).
Proof.
  intros Ha He Ht Hr task identity directory tr.
  set (f := fields_of kvs e0 t0 r).
  assert (Htr : tr = fst (deploy cfg w f)).
  { subst tr. rewrite (handle_request_deploys _ _ _ _ _ _ Ha He Ht Hr).
    apply fst_finish. }
  split; [apply (repo_name_is_project_identity f) | split; [| split]].
  - rewrite Htr. apply deploy_starts_with_makedirs.
  - intros name args cwd Hin.
    assert (Hcmd : In (ERun ("gh" :: "repo" :: "create" :: name :: args) cwd)
                      (map run_event (publish_commands cfg f))).
    { destruct (deploy_commands cfg w f) as [n Hn].
      assert (Hf : In (ERun ("gh" :: "repo" :: "create" :: name :: args) cwd)
                      (filter version_control_effect tr)).
      { apply filter_In. split; [exact Hin | reflexivity]. }
      rewrite Htr, Hn in Hf.
      apply in_map_iff in Hf as (c & Hc & Hcin).
      apply in_map_iff. exists c. split; [exact Hc |].
      apply (in_firstn c n). exact Hcin. }
    cbn [publish_commands map run_event fst snd In] in Hcmd.
    repeat (destruct Hcmd as [Hcmd | Hcmd]; [try discriminate |]);
      [| contradiction].
    now injection Hcmd as <- _.
  - intros content Hmat Hok. rewrite Htr.
    rewrite (deploy_materialises cfg w f content Hmat). cbn [fst].
    apply in_or_app. right.
    unfold publish_and_respond.
    pose proof (publish_trace cfg w f) as Hp.
    destruct (publish cfg w f) as [ptr pres]. cbn [fst] in Hp.
    assert (Hin : In (ERun ["gh"; "repo"; "create"; identity;
                            "--public"; "--source"; directory; "--push"; "--confirm"]
                        None) ptr).
    { rewrite Hp. revert Hok.
      unfold publish_commands, commands_run. cbn [firstn In].
      intros Hok.
      rewrite !Hok by (cbn [In]; tauto).
      destruct (command_ok w _); cbn [firstn map run_event fst snd In]; tauto. }
    destruct pres as [sha|o]; [| exact Hin].
    rewrite bind_value. cbn [fst]. apply in_or_app. now left.
Qed.

Lemma project_identity_names_directory_and_repository_witness :
  exists rest,
    fst (handle_request Sample.cfg (Sample.world Sample.always_500)
           (Some (JObj Sample.request))) =
    EMakedirs "./workspace/quiz-app-1" :: rest.
Proof.
  apply (proj1 (proj2 (project_identity_names_directory_and_repository
    Sample.cfg (Sample.world Sample.always_500) Sample.request
    "student@example.com" "Quiz App" 1 eq_refl eq_refl eq_refl eq_refl))).
Defined.

(** C7 as the specification words it does not hold: for the request whose
    task is [R&D] and whose round is 2 the formula gives [r&d-2] on the
    request's task, while the directory the handler creates and the remote
    repository it names are [r&amp;d-2]. *)
Lemma identity_of_markup_task_is_escaped :
  let tr := fst (handle_request Sample.cfg (Sample.world Sample.always_500)
                   (Some (JObj Sample.request_markup))) in
  Py.assoc "task" Sample.request_markup = Some (JStr "R&D") /\
  Py.assoc "round" Sample.request_markup = Some (JInt 2) /\
  PyStr.lower (PyStr.replace " " "-" ("R&D" ++ "-" ++ PyStr.of_int 2)) = "r&d-2" /\
  (exists rest, tr = EMakedirs "./workspace/r&amp;d-2" :: rest) /\
  In (ERun ["gh"; "repo"; "create"; "r&amp;d-2";
            "--public"; "--source"; "./workspace/r&amp;d-2"; "--push"; "--confirm"]
        None) tr /\
  ~ In (EMakedirs "./workspace/r&d-2") tr /\
  forall args cwd, ~ In (ERun ("gh" :: "repo" :: "create" :: "r&d-2" :: args) cwd) tr.
Proof.
  split; [reflexivity | split; [reflexivity | split; [reflexivity | split]]].
  - eexists. reflexivity.
  - split; [vm_compute; do 12 right; left; reflexivity | split].
    + intros Hin. vm_compute in Hin.
      repeat (destruct Hin as [Hin | Hin]; [discriminate Hin |]).
      exact Hin.
    + intros args cwd Hin. vm_compute in Hin.
      repeat (destruct Hin as [Hin | Hin]; [discriminate Hin |]).
      exact Hin.
Qed.

(** ** The success response *)

(** C8, as the code has it.  On full success the handler builds a body of
    exactly the seven fields [email], [task], [round], [nonce], [repo_url],
    [commit_sha], [pages_url]; a missing email is [student@example.com] and
    a missing round is 1; the nonce is the request's, [null] when missing;
    and task and email are the request's values after HTML escaping, equal
    to them when they hold none of the five escaped characters.  The body is
    returned with status 200 when the nonce can be serialised, that is when
    it holds no infinity and no NaN; otherwise building the response raises
    [ValueError]. *)
Theorem success_response_payload (cfg : Config) (w : World)
  (kvs : list (string * JSON)) (e0 t0 : string) (r : Z) (content out : string) :
  authenticated cfg kvs ->
  request_email kvs = JStr e0 ->
  request_task w kvs = JStr t0 ->
  Py.int (request_round kvs) = Ok r ->
  materialises cfg w (fields_of kvs e0 t0 r) content ->
  publishes cfg w (fields_of kvs e0 t0 r) out ->
  let identity := repo_name_of (fields_of kvs e0 t0 r) in
  let response_payload :=
    JObj [("email", JStr (PyStr.html_escape e0));
          ("task", JStr (PyStr.html_escape t0));
          ("round", JInt r);
          ("nonce", field kvs "nonce" JNull);
          ("repo_url",
           JStr ("https://github.com/" ++ GITHUB_USERNAME cfg ++ "/" ++ identity));
          ("commit_sha", JStr (PyStr.strip out));
          ("pages_url",
           JStr ("https://" ++ GITHUB_USERNAME cfg ++ ".github.io/" ++ identity ++ "/"))] in
  (Py.serialisable (field kvs "nonce" JNull) = true ->
   snd (handle_request cfg w (Some (JObj kvs))) = Response 200 response_payload) /\
  (Py.serialisable (field kvs "nonce" JNull) = false ->
   snd (handle_request cfg w (Some (JObj kvs))) = Unhandled ValueError) /\
  keys response_payload =
    ["email"; "task"; "round"; "nonce"; "repo_url"; "commit_sha"; "pages_url"] /\
  (Py.assoc "email" kvs = None -> e0 = "student@example.com") /\
  (Py.assoc "round" kvs = None -> r = 1) /\
  (forall v, Py.assoc "nonce" kvs = Some v -> field kvs "nonce" JNull = v) /\
  (Py.assoc "nonce" kvs = None -> field kvs "nonce" JNull = JNull) /\
  (plain e0 = true -> PyStr.html_escape e0 = e0) /\
  (plain t0 = true -> PyStr.html_escape t0 = t0).
Proof.
  intros Ha He Ht Hr Hmat Hpub identity response_payload.
  rewrite (handle_request_succeeds _ _ _ _ _ _ _ _ Ha He Ht Hr Hmat Hpub).
  pose proof (serialisable_payload cfg (fields_of kvs e0 t0 r) (PyStr.strip out))
    as Hnonce.
  cbn [snd]. unfold final_outcome. rewrite Hnonce. cbn [nonce fields_of].
  split; [now intros -> | split; [now intros -> | split; [reflexivity |]]].
  unfold request_email, request_round, field in *.
  repeat split.
  - intros Hnone. rewrite Hnone in He. now injection He.
  - intros Hnone. rewrite Hnone in Hr. now injection Hr.
  - now intros v ->.
  - now intros ->.
  - apply html_escape_plain.
  - apply html_escape_plain.
Qed.

Lemma success_response_payload_witness :
  snd (handle_request Sample.cfg (Sample.world Sample.always_500)
         (Some (JObj Sample.request))) =
  Response 200
    (JObj [("email", JStr "student@example.com");
           ("task", JStr "Quiz App");
           ("round", JInt 1);
           ("nonce", JNull);
           ("repo_url", JStr "https://github.com/u/quiz-app-1");
           ("commit_sha", JStr "abc123");
           ("pages_url", JStr "https://u.github.io/quiz-app-1/")]).
Proof.
  apply (proj1 (success_response_payload
    Sample.cfg (Sample.world Sample.always_500) Sample.request
    "student@example.com" "Quiz App" 1 "<html>..</html>" ("abc123" ++ nl)
    eq_refl eq_refl eq_refl eq_refl
    (conj eq_refl (conj eq_refl eq_refl)) (conj eq_refl eq_refl))
    eq_refl).
Defined.

(** C8 as the specification words it does not hold: a fully successful request whose
    task is [R&D] and whose email holds angle brackets is answered with the
    escaped texts, not with the request's values. *)
Lemma response_does_not_echo_markup :
  Py.assoc "task" Sample.request_markup = Some (JStr "R&D") /\
  Py.assoc "email" Sample.request_markup = Some (JStr "a<b>@example.com") /\
  snd (handle_request Sample.cfg (Sample.world Sample.always_500)
         (Some (JObj Sample.request_markup))) =
  Response 200
    (JObj [("email", JStr "a&lt;b&gt;@example.com");
           ("task", JStr "R&amp;D");
           ("round", JInt 2);
           ("nonce", JNull);
           ("repo_url", JStr "https://github.com/u/r&amp;d-2");
           ("commit_sha", JStr "abc123");
           ("pages_url", JStr "https://u.github.io/r&amp;d-2/")]) /\
  JStr "R&amp;D" <> JStr "R&D" /\
  JStr "a&lt;b&gt;@example.com" <> JStr "a<b>@example.com".
Proof. repeat split; discriminate. Qed.

(** ** Escaping *)



(** ** A round that is not an integer *)

(** C10, as the code has it.  An authenticated request whose round is
    present and does not convert to an integer makes the handler leave with
    an exception nobody catches, not with a 400, and with an empty trace: no
    directory is created and no file written.  The exception is the one of
    the conversion when the email and the task are strings or missing; when
    one of them is present and is not a string, the handler has already left
    with the [AttributeError] of the escaping, and the round is never
    converted. *)
Theorem unconvertible_round_is_unhandled (cfg : Config) (w : World)
  (kvs : list (string * JSON)) (v : JSON) (e : Exn) :
  authenticated cfg kvs ->
  Py.assoc "round" kvs = Some v ->
  Py.int v = Raise e ->
  (e = TypeError \/ e = ValueError \/ e = OverflowError) /\
  (forall e0 t0 : string,
      request_email kvs = JStr e0 ->
      request_task w kvs = JStr t0 ->
      handle_request cfg w (Some (JObj kvs)) = ([], Unhandled e)) /\
  ((forall s, request_email kvs <> JStr s) \/ (forall s, request_task w kvs <> JStr s) ->
   handle_request cfg w (Some (JObj kvs)) = ([], Unhandled AttributeError)).
Proof.
  intros Ha Hround Hint.
  rewrite (handle_request_authenticated _ _ _ Ha).
  assert (Hr : Py.int (field kvs "round" (JInt 1)) = Raise e).
  { unfold field. now rewrite Hround. }
  unfold request_email, request_task, extract_fields. rewrite !get_obj.
  split; [| split].
  - destruct v as [| | |[q|neg|]|s| |]; simpl in Hint; try discriminate;
      try (injection Hint as <-; tauto).
    destruct (Py.int_of_string s); [discriminate | injection Hint as <-; tauto].
  - intros e0 t0 -> ->. cbn [lift Py.escape bind ret leave finish fst snd app].
    rewrite Hr. reflexivity.
  - intros Hbad.
    destruct (field kvs "email" (JStr "student@example.com")) as [| | | |e0| |];
      try reflexivity.
    destruct (field kvs "task" (JStr (default_task w))) as [| | | |t0| |];
      try reflexivity.
    destruct Hbad as [Hbad | Hbad];
      [now contradiction (Hbad e0) | now contradiction (Hbad t0)].
Qed.

Lemma unconvertible_round_is_unhandled_witness :
  handle_request Sample.cfg (Sample.world Sample.always_500)
    (Some (JObj Sample.request_bad_round)) = ([], Unhandled ValueError).
Proof.
  apply (proj1 (proj2 (unconvertible_round_is_unhandled
    Sample.cfg (Sample.world Sample.always_500) Sample.request_bad_round
    (JStr "two") ValueError eq_refl eq_refl eq_refl))
    "student@example.com" "Quiz App" eq_refl eq_refl).
Defined.

(** C10 as the specification words it does not hold: the round [two] of
    this authenticated request does not convert, yet the exception the
    handler leaves with is not the one of the conversion, the email being a
    number. *)
Lemma unconvertible_round_after_numeric_email :
  authenticated Sample.cfg Sample2.request_bad_email_and_round /\
  Py.assoc "round" Sample2.request_bad_email_and_round = Some (JStr "two") /\
  Py.int (JStr "two") = Raise ValueError /\
  handle_request Sample.cfg (Sample.world Sample.always_500)
    (Some (JObj Sample2.request_bad_email_and_round)) =
  ([], Unhandled AttributeError).
Proof. repeat split. Qed.

(** * Further properties *)

(** ** Reversal and stripping *)

Lemma append_nil_r (s : string) : s ++ "" = s.
Proof. induction s as [|c s IH]; simpl; [reflexivity | now rewrite IH]. Qed.

Lemma append_assoc (a b c : string) : (a ++ b) ++ c = a ++ (b ++ c).
Proof. induction a as [|x a IH]; simpl; [reflexivity | now rewrite IH]. Qed.

Lemma rev_onto_append (s acc : string) :
  PyStr.rev_onto s acc = PyStr.rev s ++ acc.
Proof.
  unfold PyStr.rev. revert acc.
  induction s as [|c s IH]; intros acc; simpl; [reflexivity|].
  rewrite (IH (String c acc)), (IH (String c "")), append_assoc. reflexivity.
Qed.

Lemma rev_cons (c : ascii) (s : string) :
  PyStr.rev (String c s) = PyStr.rev s ++ String c "".
Proof. unfold PyStr.rev at 1. simpl. apply rev_onto_append. Qed.

Lemma rev_append (a b : string) :
  PyStr.rev (a ++ b) = PyStr.rev b ++ PyStr.rev a.
Proof.
  induction a as [|c a IH]; simpl.
  - now rewrite append_nil_r.
  - now rewrite !rev_cons, IH, append_assoc.
Qed.

Lemma rev_involutive (s : string) : PyStr.rev (PyStr.rev s) = s.
Proof.
  induction s as [|c s IH]; [reflexivity|].
  now rewrite rev_cons, rev_append, IH.
Qed.

Lemma rev_nonempty (t : string) : t <> "" -> PyStr.rev t <> "".
Proof.
  intros Ht Hrev. apply Ht.
  rewrite <- (rev_involutive t), Hrev. reflexivity.
Qed.

Section Stripping.

Variable p : ascii -> bool.

Lemma any_char_append (a b : string) :
  any_char p (a ++ b) = (any_char p a || any_char p b)%bool.
Proof.
  induction a as [|c a IH]; simpl; [reflexivity|].
  now rewrite IH, orb_assoc.
Qed.

Lemma any_char_rev (s : string) : any_char p (PyStr.rev s) = any_char p s.
Proof.
  induction s as [|c s IH]; [reflexivity|].
  rewrite rev_cons, any_char_append, IH. simpl.
  rewrite orb_false_r. apply orb_comm.
Qed.

Lemma all_chars_append (a b : string) :
  all_chars p (a ++ b) = (all_chars p a && all_chars p b)%bool.
Proof.
  induction a as [|c a IH]; simpl; [reflexivity|].
  now rewrite IH, andb_assoc.
Qed.

Lemma all_chars_rev (s : string) : all_chars p (PyStr.rev s) = all_chars p s.
Proof.
  induction s as [|c s IH]; [reflexivity|].
  rewrite rev_cons, all_chars_append, IH. simpl.
  rewrite andb_true_r. apply andb_comm.
Qed.

Lemma lstrip_by_all (a b : string) :
  all_chars p a = true -> PyStr.lstrip_by p (a ++ b) = PyStr.lstrip_by p b.
Proof.
  induction a as [|c a IH]; simpl; [reflexivity|].
  destruct (p c); simpl; [exact IH | discriminate].
Qed.

(** A string that begins with a character which [p] refuses is left as it
    is by [lstrip_by p]. *)
Lemma lstrip_by_head (t x : string) :
  t <> "" -> any_char p t = false -> PyStr.lstrip_by p (t ++ x) = t ++ x.
Proof.
  destruct t as [|c t]; [congruence|]. simpl. intros _ Hc.
  apply orb_false_iff in Hc as [Hc _]. now rewrite Hc.
Qed.

(** What [strip_by p] removes around a text that holds no character of
    [p]. *)
Lemma strip_by_surrounded (pre t post : string) :
  all_chars p pre = true -> all_chars p post = true ->
  t <> "" -> any_char p t = false ->
  PyStr.strip_by p (pre ++ t ++ post) = t.
Proof.
  intros Hpre Hpost Ht Hs. unfold PyStr.strip_by, PyStr.rstrip_by.
  rewrite (lstrip_by_all pre _ Hpre), (lstrip_by_head t post Ht Hs).
  rewrite rev_append, lstrip_by_all by now rewrite all_chars_rev.
  rewrite <- (append_nil_r (PyStr.rev t)).
  rewrite lstrip_by_head.
  - now rewrite append_nil_r, rev_involutive.
  - now apply rev_nonempty.
  - now rewrite any_char_rev.
Qed.

Lemma lstrip_by_idempotent (s : string) :
  PyStr.lstrip_by p (PyStr.lstrip_by p s) = PyStr.lstrip_by p s.
Proof.
  induction s as [|c s IH]; [reflexivity|]. simpl.
  destruct (p c) eqn:Hc; [exact IH|]. simpl. now rewrite Hc.
Qed.

Lemma rstrip_by_idempotent (s : string) :
  PyStr.rstrip_by p (PyStr.rstrip_by p s) = PyStr.rstrip_by p s.
Proof. unfold PyStr.rstrip_by. now rewrite rev_involutive, lstrip_by_idempotent. Qed.

(** The head of a string that is not all in [p] survives [rstrip_by p]. *)
Lemma rstrip_by_cons (c : ascii) (s : string) :
  PyStr.rstrip_by p (String c s) =
  if all_chars p s then (if p c then "" else String c "")
  else String c (PyStr.rstrip_by p s).
Proof.
  unfold PyStr.rstrip_by. rewrite rev_cons.
  destruct (all_chars p s) eqn:Hs.
  - rewrite lstrip_by_all by now rewrite all_chars_rev.
    simpl. now destruct (p c).
  - assert (Hl : forall a b, all_chars p a = false ->
                             PyStr.lstrip_by p (a ++ b) = PyStr.lstrip_by p a ++ b).
    { intros a b. induction a as [|d a IH]; simpl; [discriminate|].
      destruct (p d); simpl; [exact IH | reflexivity]. }
    rewrite Hl by now rewrite all_chars_rev.
    now rewrite rev_append.
Qed.

Lemma lstrip_rstrip_lstrip (s : string) :
  PyStr.lstrip_by p (PyStr.rstrip_by p (PyStr.lstrip_by p s)) =
  PyStr.rstrip_by p (PyStr.lstrip_by p s).
Proof.
  induction s as [|c s IH]; [reflexivity|]. simpl.
  destruct (p c) eqn:Hc; [exact IH|].
  rewrite rstrip_by_cons, Hc.
  destruct (all_chars p s); simpl; now rewrite Hc.
Qed.

Lemma strip_by_all (s : string) : all_chars p s = true -> PyStr.strip_by p s = "".
Proof.
  intros Hs. unfold PyStr.strip_by.
  rewrite <- (append_nil_r s), (lstrip_by_all s "" Hs). reflexivity.
Qed.

End Stripping.

Lemma strip_trimmed (s : string) :
  PyStr.lstrip (PyStr.strip s) = PyStr.strip s /\
  PyStr.rstrip (PyStr.strip s) = PyStr.strip s.
Proof.
  unfold PyStr.strip, PyStr.strip_by, PyStr.lstrip, PyStr.rstrip.
  split; [apply lstrip_rstrip_lstrip | apply rstrip_by_idempotent].
Qed.

Lemma strip_all_space (s : string) :
  all_chars PyStr.is_space s = true -> PyStr.strip s = "".
Proof. apply strip_by_all. Qed.

(** ** Decimal text *)

Ltac eval_digit :=
  match goal with
  | |- context [Py.digit_val ?c] =>
      let v := eval vm_compute in (Py.digit_val c) in
      change (Py.digit_val c) with v
  end;
  cbv iota.

Lemma digits_of_uint_acc (l : Decimal.uint) :
  forall acc : positive,
  Py.digits (NilEmpty.string_of_uint l) (Z.pos acc) true =
  Some (Z.pos (Pos.of_uint_acc l acc)).
Proof.
  induction l; intros acc; cbn [NilEmpty.string_of_uint Py.digits Pos.of_uint_acc];
    [reflexivity | ..];
    eval_digit; rewrite <- IHl; f_equal; lia.
Qed.

Lemma digits_of_uint (l : Decimal.uint) :
  forall after_digit : bool,
  l <> Decimal.Nil \/ after_digit = true ->
  Py.digits (NilEmpty.string_of_uint l) 0 after_digit =
  Some (Z.of_N (Pos.of_uint l)).
Proof.
  induction l; intros b Hb; cbn [NilEmpty.string_of_uint Py.digits Pos.of_uint].
  - destruct Hb as [Hb | ->]; [congruence | reflexivity].
  - change (Py.digit_val "0") with (Some 0). cbv iota.
    change (10 * 0 + 0) with 0. apply IHl. now right.
  - change (Py.digit_val "1") with (Some 1). apply (digits_of_uint_acc l 1).
  - change (Py.digit_val "2") with (Some 2). apply (digits_of_uint_acc l 2).
  - change (Py.digit_val "3") with (Some 3). apply (digits_of_uint_acc l 3).
  - change (Py.digit_val "4") with (Some 4). apply (digits_of_uint_acc l 4).
  - change (Py.digit_val "5") with (Some 5). apply (digits_of_uint_acc l 5).
  - change (Py.digit_val "6") with (Some 6). apply (digits_of_uint_acc l 6).
  - change (Py.digit_val "7") with (Some 7). apply (digits_of_uint_acc l 7).
  - change (Py.digit_val "8") with (Some 8). apply (digits_of_uint_acc l 8).
  - change (Py.digit_val "9") with (Some 9). apply (digits_of_uint_acc l 9).
Qed.

Lemma string_of_uint_spaceless (l : Decimal.uint) :
  any_char Py.int_space (NilEmpty.string_of_uint l) = false.
Proof. induction l; simpl; [reflexivity | assumption ..]. Qed.

Lemma string_of_uint_nonempty (l : Decimal.uint) :
  l <> Decimal.Nil -> NilEmpty.string_of_uint l <> "".
Proof. destruct l; simpl; congruence. Qed.

(** A decimal text without sign is read back as its number. *)
Lemma digits_of_positive (p : positive) :
  exists c rest,
    NilEmpty.string_of_uint (Pos.to_uint p) = String c rest /\
    c <> "+"%char /\ c <> "-"%char /\
    Py.digits (String c rest) 0 false = Some (Z.pos p).
Proof.
  pose proof (Unsigned.to_uint_nonnil p) as Hnil.
  pose proof (Unsigned.of_to p) as Hof.
  pose proof (digits_of_uint (Pos.to_uint p) false (or_introl Hnil)) as Hd.
  rewrite Hof in Hd.
  destruct (Pos.to_uint p); [congruence | ..];
    (eexists _, _; split; [reflexivity | split; [discriminate | split;
       [discriminate | exact Hd]]]).
Qed.

Lemma of_int_spaceless (n : Z) :
  PyStr.of_int n <> "" /\ any_char Py.int_space (PyStr.of_int n) = false.
Proof.
  unfold PyStr.of_int. destruct n as [|p|p]; cbn [Z.to_int NilZero.string_of_int].
  - split; [discriminate | reflexivity].
  - pose proof (Unsigned.to_uint_nonnil p) as Hnil.
    pose proof (string_of_uint_spaceless (Pos.to_uint p)) as Hs.
    pose proof (string_of_uint_nonempty _ Hnil) as Hne.
    unfold NilZero.string_of_uint. destruct (Pos.to_uint p); [congruence | ..];
      (split; [exact Hne | exact Hs]).
  - pose proof (Unsigned.to_uint_nonnil p) as Hnil.
    pose proof (string_of_uint_spaceless (Pos.to_uint p)) as Hs.
    split; [discriminate|].
    unfold NilZero.string_of_uint. destruct (Pos.to_uint p); [congruence | ..];
      exact Hs.
Qed.

(** [int(str(n)) == n], white space around the text allowed, for a number
    within the limit on the digits of a converted text. *)
Lemma int_of_string_of_int (n : Z) (pre post : string) :
  all_chars Py.int_space pre = true -> all_chars Py.int_space post = true ->
  Py.digit_count (PyStr.of_int n) <= Py.max_str_digits ->
  Py.int_of_string (pre ++ PyStr.of_int n ++ post) = Some n.
Proof.
  intros Hpre Hpost Hlimit. unfold Py.int_of_string. cbv zeta.
  destruct (of_int_spaceless n) as [Hne Hs].
  rewrite (strip_by_surrounded Py.int_space pre _ post Hpre Hpost Hne Hs).
  apply Z.ltb_ge in Hlimit. rewrite Hlimit. clear Hlimit.
  unfold PyStr.of_int. destruct n as [|p|p]; cbn [Z.to_int NilZero.string_of_int].
  - reflexivity.
  - destruct (digits_of_positive p) as (c & rest & Hstr & Hplus & Hminus & Hd).
    pose proof (Unsigned.to_uint_nonnil p) as Hnil.
    assert (Hz : NilZero.string_of_uint (Pos.to_uint p) = String c rest).
    { unfold NilZero.string_of_uint. destruct (Pos.to_uint p); [congruence | ..];
        exact Hstr. }
    rewrite Hz.
    destruct (Ascii.eqb_spec c "+"); [congruence|].
    destruct (Ascii.eqb_spec c "-"); [congruence|].
    destruct c as [[] [] [] [] [] [] [] []]; try exact Hd; congruence.
  - destruct (digits_of_positive p) as (c & rest & Hstr & Hplus & Hminus & Hd).
    pose proof (Unsigned.to_uint_nonnil p) as Hnil.
    assert (Hz : NilZero.string_of_uint (Pos.to_uint p) = String c rest).
    { unfold NilZero.string_of_uint. destruct (Pos.to_uint p); [congruence | ..];
        exact Hstr. }
    rewrite Hz, Hd. reflexivity.
Qed.

(** ** Escaped text, identity and directory *)

Lemma contains_replace_gone (old : ascii) (new s : string) :
  PyStr.contains old new = false ->
  PyStr.contains old (PyStr.replace old new s) = false.
Proof.
  intros Hnew. induction s as [|c s IH]; simpl; [reflexivity|].
  destruct (Ascii.eqb c old) eqn:Hc.
  - now rewrite contains_append, Hnew, IH.
  - simpl. now rewrite Hc, IH.
Qed.

Lemma contains_replace_absent (c old : ascii) (new s : string) :
  PyStr.contains c new = false ->
  PyStr.contains c s = false ->
  PyStr.contains c (PyStr.replace old new s) = false.
Proof.
  intros Hnew. induction s as [|d s IH]; simpl; [reflexivity|].
  intros Hs. apply orb_false_iff in Hs as [Hd Hs].
  destruct (Ascii.eqb d old).
  - now rewrite contains_append, Hnew, IH.
  - simpl. now rewrite Hd, IH.
Qed.

Lemma html_escape_no_markup (s : string) :
  PyStr.contains "<" (PyStr.html_escape s) = false /\
  PyStr.contains ">" (PyStr.html_escape s) = false /\
  PyStr.contains PyStr.dquote (PyStr.html_escape s) = false /\
  PyStr.contains "'" (PyStr.html_escape s) = false.
Proof.
  unfold PyStr.html_escape. repeat split.
  - do 3 (apply contains_replace_absent; [reflexivity|]).
    now apply contains_replace_gone.
  - do 2 (apply contains_replace_absent; [reflexivity|]).
    now apply contains_replace_gone.
  - apply contains_replace_absent; [reflexivity|].
    now apply contains_replace_gone.
  - now apply contains_replace_gone.
Qed.

Lemma is_upper_lower_char (c : ascii) : PyStr.is_upper (PyStr.lower_char c) = false.
Proof. destruct c as [[] [] [] [] [] [] [] []]; reflexivity. Qed.

Lemma has_upper_lower (s : string) : has_upper (PyStr.lower s) = false.
Proof.
  induction s as [|c s IH]; simpl; [reflexivity|].
  now rewrite is_upper_lower_char, IH.
Qed.

Lemma contains_space_lower (s : string) :
  PyStr.contains " " (PyStr.lower s) = PyStr.contains " " s.
Proof.
  induction s as [|c s IH]; simpl; [reflexivity|].
  now rewrite lower_char_space, IH.
Qed.





Lemma html_escape_cons_slash (s : string) :
  PyStr.html_escape (String "/" s) = String "/" (PyStr.html_escape s).
Proof. reflexivity. Qed.

(** ** The ways a run can end *)

Lemma authenticated_dec (cfg : Config) (kvs : list (string * JSON)) :
  {authenticated cfg kvs} + {~ authenticated cfg kvs}.
Proof.
  unfold authenticated.
  destruct (Py.assoc "secret" kvs) as [[| | | |s| |]|];
    try (right; discriminate).
  destruct (String.eqb_spec s (STORED_SECRET cfg)) as [->|Hne];
    [left; reflexivity | right; congruence].
Qed.

Lemma handle_request_unauthenticated (cfg : Config) (w : World)
  (kvs : list (string * JSON)) :
  ~ authenticated cfg kvs ->
  handle_request cfg w (Some (JObj kvs)) =
  ([], Response 403 (error_body "Invalid secret")).
Proof.
  unfold authenticated. intros Hsecret. unfold handle_request, handle_data.
  rewrite get_obj. unfold field.
  destruct (Py.assoc "secret" kvs) as [[| | | |s| |]|]; try reflexivity.
  simpl. destruct (String.eqb_spec s (STORED_SECRET cfg)) as [->|]; [| reflexivity].
  now contradiction Hsecret.
Qed.

(** Extraction either gives the fields of the request or leaves with an
    exception; it has no side effect. *)
Lemma extract_fields_cases (w : World) (kvs : list (string * JSON)) :
  (exists (e0 t0 : string) (r : Z),
      request_email kvs = JStr e0 /\
      request_task w kvs = JStr t0 /\
      Py.int (request_round kvs) = Ok r /\
      extract_fields w (JObj kvs) = ([], inl (fields_of kvs e0 t0 r))) \/
  (exists e : Exn, extract_fields w (JObj kvs) = ([], inr (Unhandled e))).
Proof.
  destruct (request_email kvs) as [| | | |e0| |] eqn:He;
    try (right; exists AttributeError; unfold extract_fields;
         rewrite !get_obj; unfold request_email in He; rewrite He; reflexivity).
  destruct (request_task w kvs) as [| | | |t0| |] eqn:Ht;
    try (right; exists AttributeError; unfold extract_fields;
         rewrite !get_obj; unfold request_email, request_task in *;
         rewrite He, Ht; reflexivity).
  destruct (Py.int (request_round kvs)) as [r|e] eqn:Hr.
  - left. exists e0, t0, r. repeat split; try reflexivity.
    now apply extract_fields_ok.
  - right. exists e. unfold extract_fields.
    rewrite !get_obj. unfold request_email, request_task, request_round in *.
    rewrite He, Ht. simpl. rewrite Hr. reflexivity.
Qed.

Lemma commands_run_bounds (w : World) (cs : list (list string * option string)) :
  forallb (command_ok w) cs = false ->
  (1 <= commands_run w cs <= length cs)%nat.
Proof.
  induction cs as [|c cs IH]; simpl; [discriminate|].
  destruct (command_ok w c); simpl; [| lia].
  intros H. specialize (IH H). lia.
Qed.

Lemma path_join_nul_free (a b : string) :
  PyStr.has_nul a = false -> PyStr.has_nul b = false ->
  PyStr.has_nul (PyStr.path_join a b) = false.
Proof.
  intros Ha Hb. unfold PyStr.path_join, PyStr.has_nul in *.
  assert (Hsep : PyStr.contains PyStr.nul (a ++ "/" ++ b) = false).
  { rewrite !contains_append, Ha, Hb. reflexivity. }
  assert (Hcat : PyStr.contains PyStr.nul (a ++ b) = false).
  { now rewrite contains_append, Ha, Hb. }
  destruct b as [|c b]; [| destruct (Ascii.eqb_spec c "/") as [-> | Hc]].
  - destruct (PyStr.rev a) as [|d ?]; [assumption|].
    destruct d as [[] [] [] [] [] [] [] []]; assumption.
  - exact Hb.
  - destruct c as [[] [] [] [] [] [] [] []]; try congruence;
      (destruct (PyStr.rev a) as [|d ?]; [assumption|];
       destruct d as [[] [] [] [] [] [] [] []]; assumption).
Qed.

(** A file of the project whose writing fails below a directory that was
    created fails with an error of the operating system. *)
Lemma write_error_in_project (w : World) (directory name : string) :
  makedirs_ok w directory = true ->
  PyStr.has_nul name = false ->
  path_error (PyStr.path_join directory name) = OSError.
Proof.
  unfold makedirs_ok, path_error. intros Hdir Hname.
  apply andb_true_iff in Hdir as [Hnul _]. apply negb_true_iff in Hnul.
  now rewrite (path_join_nul_free _ _ Hnul Hname).
Qed.

(** From Prepare Repo on, a run is a beginning of the pipeline that stops
    on a failure, or the whole pipeline followed by the notification and
    the building of the response. *)
Lemma deploy_cases (cfg : Config) (w : World) (f : Fields) :
  (exists (n : nat) (o : Outcome),
      stops_at cfg w f n o /\
      deploy cfg w f = (firstn n (pipeline_events cfg w f), inr o)) \/
  (exists out : string,
      materialises cfg w f (match chat w with
                            | ChatContent (Some content) => content
                            | _ => ""
                            end) /\
      publishes cfg w f out /\
      deploy cfg w f =
      ((pipeline_events cfg w f ++
        fst (notify_evaluation_server w (evaluation_url f)
               (payload_of cfg f (PyStr.strip out))))%list,
       if Py.serialisable (nonce f)
       then inl (Response 200 (payload_of cfg f (PyStr.strip out)))
       else inr (Unhandled ValueError))).
Proof.
  unfold stops_at.
  destruct (makedirs_ok w (repo_path_of cfg f)) eqn:Hdir.
  2:{ left. exists 1%nat, (Unhandled (path_error (repo_path_of cfg f))).
      split; [tauto|].
      unfold deploy, makedirs. rewrite bind_emit, Hdir. reflexivity. }
  destruct (generation_error w) as [e|] eqn:Hgen.
  { left. exists 3%nat, (Response 500 (error_body ("LLM generation failed: " ++ e))).
    split; [right; left; eauto |].
    now rewrite (deploy_generation_fails cfg w f e Hdir Hgen). }
  assert (Hchat : exists content, chat w = ChatContent (Some content)).
  { unfold generation_error in Hgen.
    destruct (chat w) as [[content|]|msg]; try discriminate. eauto. }
  destruct Hchat as [content Hchat].
  unfold pipeline_events, generated_code. rewrite Hchat.
  destruct (forallb (fun pc => write_ok w (fst pc)) (project_files cfg f "")) eqn:Hw.
  - pose proof (conj Hdir (conj Hchat Hw) : materialises cfg w f content) as Hmat.
    rewrite (deploy_materialises cfg w f content Hmat).
    destruct (forallb (command_ok w) (publish_commands cfg f)) eqn:Hall.
    + destruct (all_commands_ok_publishes cfg w f Hall) as [out Hpub].
      right. exists out. split; [exact Hmat | split; [exact Hpub |]].
      rewrite (publish_and_respond_succeeds cfg w f out Hpub). cbn [fst snd].
      now rewrite app_assoc.
    + left. destruct (first_failure_none w _ Hall) as [c Hfirst].
      rewrite (publish_and_respond_fails cfg w f c Hfirst). cbn [fst snd].
      pose proof (first_failure_spec w (publish_commands cfg f)) as Hspec.
      rewrite Hfirst in Hspec. destruct Hspec as (_ & Hb & Hnth & Hfail).
      change (length (publish_commands cfg f)) with 9%nat in Hb.
      exists (6 + commands_run w (publish_commands cfg f))%nat,
             (Unhandled (command_error w c)).
      split.
      * right; right; right. split; [lia |]. exists c.
        replace (6 + commands_run w (publish_commands cfg f) - 7)%nat
          with (commands_run w (publish_commands cfg f) - 1)%nat by lia.
        repeat split; assumption.
      * change 6%nat with (length (materialise_events cfg f (PyStr.strip content))).
        now rewrite firstn_app_2, firstn_map.
  - left. revert Hw.
    pose proof (write_error_in_project w (repo_path_of cfg f) "index.html" Hdir eq_refl)
      as Hindex.
    pose proof (write_error_in_project w (repo_path_of cfg f) "README.md" Hdir eq_refl)
      as Hreadme.
    pose proof (write_error_in_project w (repo_path_of cfg f) "LICENSE" Hdir eq_refl)
      as Hlicense.
    unfold deploy, makedirs, generate_app_from_brief, write_files, write_file,
      project_files, forallb.
    rewrite bind_emit, Hdir, Hchat. cbn [bind ret catch emit fst snd app map].
    rewrite Hindex, Hreadme, Hlicense.
    destruct (write_ok w (PyStr.path_join (repo_path_of cfg f) "index.html")).
    2:{ intros _. exists 4%nat, (Unhandled OSError).
        split; [right; right; left; split; [lia | reflexivity] | reflexivity]. }
    destruct (write_ok w (PyStr.path_join (repo_path_of cfg f) "README.md")).
    2:{ intros _. exists 5%nat, (Unhandled OSError).
        split; [right; right; left; split; [lia | reflexivity] | reflexivity]. }
    destruct (write_ok w (PyStr.path_join (repo_path_of cfg f) "LICENSE"));
      [discriminate|].
    intros _. exists 6%nat, (Unhandled OSError).
    split; [right; right; left; split; [lia | reflexivity] | reflexivity].
Qed.

Lemma extract_fields_inv (w : World) (data : JSON) (tr : list Event) (f : Fields) :
  extract_fields w data = (tr, inl f) ->
  exists (kvs : list (string * JSON)) (e0 t0 : string) (r : Z),
    data = JObj kvs /\
    request_email kvs = JStr e0 /\
    request_task w kvs = JStr t0 /\
    Py.int (request_round kvs) = Ok r /\
    f = fields_of kvs e0 t0 r /\ tr = [].
Proof.
  intros Hex. destruct data as [| | | | |items|kvs]; try discriminate Hex.
  destruct (extract_fields_cases w kvs) as [(e0 & t0 & r & He & Ht & Hr & Hok) | [e Hfail]].
  - rewrite Hok in Hex. injection Hex as <- <-.
    exists kvs, e0, t0, r. repeat split; assumption.
  - rewrite Hfail in Hex. discriminate Hex.
Qed.

(** The ways the handler ends. *)
Lemma handle_request_cases (cfg : Config) (w : World) (body : option JSON) :
  (body = None /\
   handle_request cfg w body = ([], Response 400 (error_body "Invalid JSON"))) \/
  (exists data, body = Some data /\ (forall kvs, data <> JObj kvs) /\
                handle_request cfg w body = ([], Unhandled AttributeError)) \/
  (exists kvs, body = Some (JObj kvs) /\ ~ authenticated cfg kvs /\
               handle_request cfg w body =
               ([], Response 403 (error_body "Invalid secret"))) \/
  (exists kvs e, body = Some (JObj kvs) /\ authenticated cfg kvs /\
                 extract_fields w (JObj kvs) = ([], inr (Unhandled e)) /\
                 handle_request cfg w body = ([], Unhandled e)) \/
  (exists kvs e0 t0 r,
      body = Some (JObj kvs) /\ authenticated cfg kvs /\
      request_email kvs = JStr e0 /\
      request_task w kvs = JStr t0 /\
      Py.int (request_round kvs) = Ok r /\
      handle_request cfg w body = finish (deploy cfg w (fields_of kvs e0 t0 r))).
Proof.
  destruct body as [data|]; [| left; split; reflexivity].
  right.
  destruct data as [| | | | |items|kvs];
    try (left; eexists; split; [reflexivity | split; [discriminate | reflexivity]]).
  right.
  destruct (authenticated_dec cfg kvs) as [Ha | Hna].
  2:{ left. exists kvs. split; [reflexivity | split; [exact Hna |]].
      now apply handle_request_unauthenticated. }
  right.
  destruct (extract_fields_cases w kvs) as [(e0 & t0 & r & He & Ht & Hr & Hok) | [e Hfail]].
  - right. exists kvs, e0, t0, r. repeat split; try assumption.
    now apply handle_request_deploys.
  - left. exists kvs, e. split; [reflexivity | split; [exact Ha | split; [exact Hfail |]]].
    rewrite (handle_request_authenticated _ _ _ Ha), Hfail. reflexivity.
Qed.

(** ** Attempts and waits of the notification *)

Lemma post_loop_posts (w : World) (url payload : JSON) (ds : list Z) :
  forall (a : nat) (u p : JSON) (t : Z),
  In (EPost u p t) (fst (post_loop w url payload a ds)) ->
  u = url /\ p = payload /\ t = 10.
Proof.
  induction ds as [|d ds IH]; intros a u p t; [contradiction|].
  cbn [post_loop]. unfold requests_post. rewrite bind_emit.
  destruct (post w a) as [c|msg]; cbn [fst snd ret bind leave app].
  - destruct (Z.eqb c 200); cbn [fst snd ret].
    + intros [[= <- <- <-] | []]. now repeat split.
    + rewrite bind_emit. cbn [fst].
      intros [[= <- <- <-] | [Hsleep | Hin]];
        [now repeat split | discriminate Hsleep | exact (IH _ _ _ _ Hin)].
  - intros [[= <- <- <-] | []]. now repeat split.
Qed.

Lemma notify_posts (w : World) (url payload u p : JSON) (t : Z) :
  In (EPost u p t) (fst (notify_evaluation_server w url payload)) ->
  u = url /\ p = payload /\ t = 10 /\ Py.truthy url = true.
Proof.
  unfold notify_evaluation_server.
  destruct (Py.truthy url); [| contradiction].
  pose proof (post_loop_posts w url payload delays 0 u p t) as Hloop.
  destruct (post_loop w url payload 0 delays) as [tr [[]|e]];
    cbn [catch fst emit] in *.
  - intros Hin. destruct (Hloop Hin) as (-> & -> & ->). now repeat split.
  - intros Hin. apply in_app_or in Hin as [Hin | [Hpr | []]]; [| discriminate Hpr].
    destruct (Hloop Hin) as (-> & -> & ->). now repeat split.
Qed.

Lemma total_wait_app (a b : list Event) :
  total_wait (a ++ b) = total_wait a + total_wait b.
Proof.
  induction a as [|ev a IH]; [reflexivity|].
  destruct ev; cbn [app total_wait]; rewrite IH; lia.
Qed.

Lemma post_loop_wait (w : World) (url payload : JSON) (ds : list Z) :
  Forall (fun d => 0 <= d) ds ->
  forall a : nat,
  0 <= total_wait (fst (post_loop w url payload a ds)) <= fold_right Z.add 0 ds.
Proof.
  induction 1 as [|d ds Hd Hds IH]; intros a; [simpl; lia|].
  cbn [post_loop fold_right]. unfold requests_post. rewrite bind_emit.
  destruct (post w a) as [c|msg]; cbn [fst snd ret bind leave app total_wait].
  - destruct (Z.eqb c 200); cbn [fst snd ret total_wait].
    + specialize (IH a). lia.
    + rewrite bind_emit. cbn [fst total_wait]. specialize (IH (S a)). lia.
  - specialize (IH a). lia.
Qed.

Lemma notify_wait (w : World) (url payload : JSON) :
  0 <= total_wait (fst (notify_evaluation_server w url payload)) <= 31.
Proof.
  unfold notify_evaluation_server.
  destruct (Py.truthy url); [| simpl; lia].
  assert (Hds : Forall (fun d => 0 <= d) delays)
    by (unfold delays; repeat constructor; lia).
  pose proof (post_loop_wait w url payload delays Hds 0) as Hloop.
  change (fold_right Z.add 0 delays) with 31 in Hloop.
  destruct (post_loop w url payload 0 delays) as [tr [[]|e]];
    cbn [catch fst emit] in *; [exact Hloop|].
  rewrite total_wait_app. simpl. lia.
Qed.

Lemma post_loop_first_attempt (w : World) (url payload : JSON) (a : nat)
  (d : Z) (ds : list Z) :
  exists rest,
    fst (post_loop w url payload a (d :: ds)) = EPost url payload 10 :: rest.
Proof.
  cbn [post_loop]. unfold requests_post. rewrite bind_emit.
  destruct (post w a) as [c|msg]; cbn [fst snd ret bind leave app];
    [| eexists; reflexivity].
  destruct (Z.eqb c 200); cbn [fst snd ret]; [eexists; reflexivity|].
  rewrite bind_emit. eexists; reflexivity.
Qed.

Lemma notify_attempts (w : World) (url payload : JSON) :
  (Py.truthy url = false -> notify_evaluation_server w url payload = ([], inl tt)) /\
  (Py.truthy url = true ->
   (1 <= attempts (fst (notify_evaluation_server w url payload)) <= 5)%nat).
Proof.
  unfold notify_evaluation_server. split; intros Hurl; rewrite Hurl; [reflexivity|].
  pose proof (post_loop_attempts w url payload delays 0) as Hle.
  assert (Hge : (1 <= attempts (fst (post_loop w url payload 0 delays)))%nat).
  { destruct (post_loop_first_attempt w url payload 0 1 [2; 4; 8; 16]) as [rest Hrest].
    unfold delays. rewrite Hrest. unfold attempts. cbn [filter is_post length].
    apply le_n_S, Nat.le_0_l. }
  change (length delays) with 5%nat in Hle.
  destruct (post_loop w url payload 0 delays) as [tr [[]|e]];
    cbn [catch fst emit] in *; [lia|].
  unfold attempts in *. rewrite filter_app, length_app. simpl. lia.
Qed.

(** The pipeline proper makes no callback attempt and never waits. *)
Lemma pipeline_quiet (cfg : Config) (w : World) (f : Fields) (n : nat) :
  filter is_post (firstn n (pipeline_events cfg w f)) = [] /\
  total_wait (firstn n (pipeline_events cfg w f)) = 0.
Proof.
  unfold pipeline_events, materialise_events, project_files, publish_commands.
  cbn [map app fst snd run_event].
  do 16 (destruct n as [|n]; [split; reflexivity|]).
  split; reflexivity.
Qed.

Lemma whole_pipeline_quiet (cfg : Config) (w : World) (f : Fields) :
  filter is_post (pipeline_events cfg w f) = [] /\
  total_wait (pipeline_events cfg w f) = 0.
Proof. split; reflexivity. Qed.

(** ** Start-up *)

(** The start-up reads the four variables once: what follows only looks
    at the values read. *)
Ltac read_variables environ :=
  generalize (getenv environ "STORED_SECRET") (getenv environ "GITHUB_TOKEN")
    (getenv environ "GITHUB_USERNAME") (getenv environ "OPENAI_API_KEY");
  let s1 := fresh "secret" in
  let s2 := fresh "token" in
  let s3 := fresh "username" in
  let s4 := fresh "api_key" in
  intros s1 s2 s3 s4.

Ltac split_unset :=
  match goal with
  | |- context [if unset ?v then _ else _] =>
      let E := fresh "E" in destruct (unset v) eqn:E
  end.

Lemma unset_false (v : option string) :
  unset v = false -> v = Some (value v) /\ value v <> "".
Proof.
  destruct v as [s|]; simpl; [| discriminate].
  intros Hs. split; [reflexivity|]. now apply String.eqb_neq.
Qed.

(** X1.  The module loads exactly when the four required variables are set
    to non-empty values and the working directory can be created.  The
    configuration then holds the values of the environment, the working
    directory being [./workspace] when [WORK_DIR] is not set, and the only
    side effect of loading is the creation of that directory. *)
Theorem startup_loads_configuration (environ : list (string * string)) (w : World) :
  let work_dir := match getenv environ "WORK_DIR" with
                  | Some d => d
                  | None => "./workspace"
                  end in
  ((exists tr cfg, startup environ w = (tr, inl cfg)) <->
   first_unset environ required_variables = None /\ makedirs_ok w work_dir = true) /\
  (forall tr cfg,
      startup environ w = (tr, inl cfg) ->
      tr = [EMakedirs work_dir] /\
      WORK_DIR cfg = work_dir /\
      getenv environ "STORED_SECRET" = Some (STORED_SECRET cfg) /\
      getenv environ "GITHUB_TOKEN" = Some (GITHUB_TOKEN cfg) /\
      getenv environ "GITHUB_USERNAME" = Some (GITHUB_USERNAME cfg) /\
      getenv environ "OPENAI_API_KEY" = Some (OPENAI_API_KEY cfg) /\
      STORED_SECRET cfg <> "" /\ GITHUB_TOKEN cfg <> "" /\
      GITHUB_USERNAME cfg <> "" /\ OPENAI_API_KEY cfg <> "").
Proof.
  intros work_dir. unfold startup, first_unset, required_variables.
  fold work_dir. generalize work_dir. clear work_dir. intros work_dir.
  read_variables environ.
  split; [split |].
  - intros (tr & cfg & Hs). revert Hs.
    repeat (split_unset; [discriminate |]).
    rewrite bind_emit. destruct (makedirs_ok w work_dir); [| discriminate].
    intros _. split; reflexivity.
  - intros [Hnone Hdir]. revert Hnone.
    repeat (split_unset; [discriminate |]).
    intros _. rewrite bind_emit, Hdir. eexists _, _. reflexivity.
  - intros tr cfg.
    repeat (split_unset; [discriminate |]).
    rewrite bind_emit. destruct (makedirs_ok w work_dir); [| discriminate].
    cbn [ret fst snd]. intros [= <- <-]. cbn [WORK_DIR STORED_SECRET GITHUB_TOKEN
                                               GITHUB_USERNAME OPENAI_API_KEY].
    destruct (unset_false _ E) as [H1 N1], (unset_false _ E0) as [H2 N2],
      (unset_false _ E1) as [H3 N3], (unset_false _ E2) as [H4 N4].
    repeat split; assumption.
Qed.

Lemma startup_loads_configuration_witness :
  (exists tr cfg,
      startup Sample2.environ (Sample.world Sample.always_500) = (tr, inl cfg)) /\
  WORK_DIR Sample.cfg = "./workspace".
Proof.
  split.
  - apply (proj2 (proj1 (startup_loads_configuration
                           Sample2.environ (Sample.world Sample.always_500)))).
    split; reflexivity.
  - apply (proj2 (startup_loads_configuration
                    Sample2.environ (Sample.world Sample.always_500))
                 [EMakedirs "./workspace"] Sample.cfg eq_refl).
Defined.

(** X2.  When a required variable is unset or empty, loading stops with a
    [RuntimeError] that names the first such variable in the order
    STORED_SECRET, GITHUB_TOKEN, GITHUB_USERNAME, OPENAI_API_KEY, and the
    working directory is not created; conversely every [RuntimeError] of the
    start-up names the first unset variable. *)
Theorem startup_names_first_unset_variable (environ : list (string * string))
  (w : World) :
  (forall name,
      first_unset environ required_variables = Some name ->
      startup environ w = ([], inr (RuntimeError (name ++ " not set in .env")))) /\
  (forall tr msg,
      startup environ w = (tr, inr (RuntimeError msg)) ->
      tr = [] /\
      exists name, first_unset environ required_variables = Some name /\
                   In name required_variables /\
                   msg = name ++ " not set in .env").
Proof.
  unfold startup, first_unset, required_variables.
  read_variables environ. split.
  - intros name.
    repeat (split_unset; [intros [= <-]; reflexivity |]).
    discriminate.
  - intros tr msg.
    repeat (split_unset;
            [intros [= <- <-]; split; [reflexivity |];
             eexists; split; [reflexivity | split; [simpl; tauto | reflexivity]] |]).
    rewrite bind_emit. destruct (makedirs_ok w _); discriminate.
Qed.

Lemma startup_names_first_unset_variable_witness :
  startup Sample2.environ_no_token (Sample.world Sample.always_500) =
  ([], inr (RuntimeError "GITHUB_TOKEN not set in .env")).
Proof.
  apply (proj1 (startup_names_first_unset_variable
                  Sample2.environ_no_token (Sample.world Sample.always_500))
               "GITHUB_TOKEN").
  reflexivity.
Defined.

(** X3.  Under any configuration the start-up produces, a request whose
    secret is missing, [null] or the empty string is answered by 403 with no
    side effect; the empty string is rejected because the start-up refuses
    an empty credential. *)
Theorem loaded_secret_rejects_empty_secret (environ : list (string * string))
  (w0 w : World) (tr : list Event) (cfg : Config) (kvs : list (string * JSON)) :
  startup environ w0 = (tr, inl cfg) ->
  Py.assoc "secret" kvs = None \/
  Py.assoc "secret" kvs = Some JNull \/
  Py.assoc "secret" kvs = Some (JStr "") ->
  handle_request cfg w (Some (JObj kvs)) =
  ([], Response 403 (error_body "Invalid secret")).
Proof.
  intros Hstart Hsecret.
  assert (Hne : STORED_SECRET cfg <> "").
  { revert Hstart. unfold startup. read_variables environ.
    repeat (split_unset; [discriminate |]).
    rewrite bind_emit. destruct (makedirs_ok w0 _); [| discriminate].
    intros [= _ <-]. cbn [STORED_SECRET]. now destruct (unset_false _ E). }
  apply handle_request_unauthenticated. unfold authenticated.
  destruct Hsecret as [-> | [-> | ->]]; congruence.
Qed.

Lemma loaded_secret_rejects_empty_secret_witness :
  handle_request Sample.cfg (Sample.world Sample.always_500)
    (Some (JObj Sample2.request_empty_secret)) =
  ([], Response 403 (error_body "Invalid secret")).
Proof.
  apply (loaded_secret_rejects_empty_secret
           Sample2.environ (Sample.world Sample.always_500)
           (Sample.world Sample.always_500) [EMakedirs "./workspace"] Sample.cfg
           Sample2.request_empty_secret eq_refl).
  right. right. reflexivity.
Defined.

(** ** The handler as a whole *)

(** X4.  A run has a side effect only for a request that carries the
    credential and whose email, task and round pass the extraction: every
    other body leaves an empty trace. *)
Theorem side_effects_need_valid_request (cfg : Config) (w : World)
  (body : option JSON) :
  fst (handle_request cfg w body) <> [] ->
  exists kvs e0 t0 r,
    body = Some (JObj kvs) /\ authenticated cfg kvs /\
    request_email kvs = JStr e0 /\
    request_task w kvs = JStr t0 /\
    Py.int (request_round kvs) = Ok r.
Proof.
  intros Htr.
  destruct (handle_request_cases cfg w body)
    as [[_ H] | [(d & _ & _ & H) | [(kvs & _ & _ & H) | [(kvs & e & _ & _ & _ & H) |
        (kvs & e0 & t0 & r & Hb & Ha & He & Ht & Hr & _)]]]];
    try (rewrite H in Htr; now contradiction Htr).
  exists kvs, e0, t0, r. repeat split; assumption.
Qed.

Lemma side_effects_need_valid_request_witness :
  exists kvs e0 t0 r,
    Some (JObj Sample.request) = Some (JObj kvs) /\ authenticated Sample.cfg kvs /\
    request_email kvs = JStr e0 /\
    request_task Sample.world_generation_fails kvs = JStr t0 /\
    Py.int (request_round kvs) = Ok r.
Proof.
  apply (side_effects_need_valid_request Sample.cfg Sample.world_generation_fails
           (Some (JObj Sample.request))).
  discriminate.
Defined.

(** X5.  Whatever the body and the world, a response of the handler has
    status 200, 400, 403 or 500; a 200 carries the seven fields of the
    payload and the three others a body with the single field [error]. *)
Theorem response_statuses (cfg : Config) (w : World) (body : option JSON)
  (status_code : Z) (b : JSON) :
  snd (handle_request cfg w body) = Response status_code b ->
  (status_code = 200 /\
   keys b = ["email"; "task"; "round"; "nonce"; "repo_url"; "commit_sha"; "pages_url"]) \/
  ((status_code = 400 \/ status_code = 403 \/ status_code = 500) /\
   keys b = ["error"]).
Proof.
  destruct (handle_request_cases cfg w body)
    as [[_ H] | [(d & _ & _ & H) | [(kvs & _ & _ & H) | [(kvs & e & _ & _ & _ & H) |
        (kvs & e0 & t0 & r & _ & _ & _ & _ & _ & H)]]]];
    rewrite H; cbn [snd]; try discriminate;
    try (intros [= <- <-]; right; split; [tauto | reflexivity]).
  destruct (deploy_cases cfg w (fields_of kvs e0 t0 r))
    as [(n & o & Hstop & Hd) | (out & _ & _ & Hd)]; rewrite Hd; cbn [finish snd].
  - destruct Hstop as [[_ ->] | [[_ [e ->]] | [[_ ->] | [_ (c & _ & _ & ->)]]]];
      try discriminate.
    intros [= <- <-]. right. split; [tauto | reflexivity].
  - destruct (Py.serialisable (nonce (fields_of kvs e0 t0 r))); [| discriminate].
    intros [= <- <-]. left. split; reflexivity.
Qed.

Lemma response_statuses_witness :
  keys (error_body "LLM generation failed: Connection error.") = ["error"].
Proof.
  destruct (response_statuses Sample.cfg Sample.world_generation_fails
              (Some (JObj Sample.request)) 500
              (error_body "LLM generation failed: Connection error.") eq_refl)
    as [[H _] | [_ H]]; [discriminate H | exact H].
Defined.

(** X6.  Every callback attempt of a run posts, with a timeout of 10, the
    very payload the handler then builds its response from, to the request's
    [evaluation_url], which is truthy: the run ends with that payload
    returned with status 200 when it can be serialised, and with the
    [ValueError] of the response when it cannot; no attempt is made in a run
    that ends in any other way. *)
Theorem callback_posts_the_response (cfg : Config) (w : World) (body : option JSON)
  (u p : JSON) (t : Z) :
  In (EPost u p t) (fst (handle_request cfg w body)) ->
  t = 10 /\
  snd (handle_request cfg w body) = final_outcome p /\
  (Py.serialisable p = true -> snd (handle_request cfg w body) = Response 200 p) /\
  (Py.serialisable p = false -> snd (handle_request cfg w body) = Unhandled ValueError) /\
  Py.truthy u = true /\
  exists kvs, body = Some (JObj kvs) /\ u = field kvs "evaluation_url" (JStr "").
Proof.
  intros Hin.
  assert (Hrun : t = 10 /\
                 snd (handle_request cfg w body) = final_outcome p /\
                 Py.truthy u = true /\
                 exists kvs, body = Some (JObj kvs) /\
                             u = field kvs "evaluation_url" (JStr "")).
  { revert Hin.
    destruct (handle_request_cases cfg w body)
      as [[_ H] | [(d & _ & _ & H) | [(kvs & _ & _ & H) | [(kvs & e & _ & _ & _ & H) |
          (kvs & e0 & t0 & r & Hb & _ & _ & _ & _ & H)]]]];
      rewrite H; cbn [fst]; try contradiction.
    rewrite fst_finish.
    destruct (deploy_cases cfg w (fields_of kvs e0 t0 r))
      as [(n & o & _ & Hd) | (out & _ & _ & Hd)]; rewrite Hd; cbn [fst].
    - intros Hin.
      assert (Hf : In (EPost u p t)
                      (filter is_post
                         (firstn n (pipeline_events cfg w (fields_of kvs e0 t0 r)))))
        by (apply filter_In; split; [exact Hin | reflexivity]).
      rewrite (proj1 (pipeline_quiet cfg w (fields_of kvs e0 t0 r) n)) in Hf.
      contradiction.
    - intros Hin. apply in_app_or in Hin as [Hin | Hin].
      + assert (Hf : In (EPost u p t)
                        (filter is_post (pipeline_events cfg w (fields_of kvs e0 t0 r))))
          by (apply filter_In; split; [exact Hin | reflexivity]).
        rewrite (proj1 (whole_pipeline_quiet cfg w (fields_of kvs e0 t0 r))) in Hf.
        contradiction.
      + apply notify_posts in Hin as (-> & -> & -> & Hurl).
        rewrite finish_final. cbn [snd].
        repeat split; [exact Hurl |]. exists kvs. split; [exact Hb | reflexivity]. }
  destruct Hrun as (Ht & Hend & Hurl & Hbody).
  repeat split; try assumption.
  - intros Hp. rewrite Hend. unfold final_outcome. now rewrite Hp.
  - intros Hp. rewrite Hend. unfold final_outcome. now rewrite Hp.
Qed.

Lemma callback_posts_the_response_witness :
  snd (handle_request Sample.cfg (Sample.world Sample.four_failures_then_200)
         (Some (JObj Sample.request_with_callback))) =
  Response 200 Sample.payload.
Proof.
  apply (proj1 (proj2 (proj2 (callback_posts_the_response Sample.cfg
           (Sample.world Sample.four_failures_then_200)
           (Some (JObj Sample.request_with_callback))
           Sample.url Sample.payload 10
           ltac:(vm_compute; do 15 right; left; reflexivity))))).
  reflexivity.
Defined.

(** X7.  No run waits more than 31 time-units in all, whatever the request
    and whatever the callback endpoint answers. *)
Theorem total_wait_is_bounded (cfg : Config) (w : World) (body : option JSON) :
  0 <= total_wait (fst (handle_request cfg w body)) <= 31.
Proof.
  destruct (handle_request_cases cfg w body)
    as [[_ H] | [(d & _ & _ & H) | [(kvs & _ & _ & H) | [(kvs & e & _ & _ & _ & H) |
        (kvs & e0 & t0 & r & _ & _ & _ & _ & _ & H)]]]];
    rewrite H; cbn [fst total_wait]; try lia.
  rewrite fst_finish.
  destruct (deploy_cases cfg w (fields_of kvs e0 t0 r))
    as [(n & o & _ & Hd) | (out & _ & _ & Hd)]; rewrite Hd; cbn [fst].
  - rewrite (proj2 (pipeline_quiet cfg w (fields_of kvs e0 t0 r) n)). lia.
  - rewrite total_wait_app, (proj2 (whole_pipeline_quiet cfg w (fields_of kvs e0 t0 r))).
    pose proof (notify_wait w (evaluation_url (fields_of kvs e0 t0 r))
                  (payload_of cfg (fields_of kvs e0 t0 r) (PyStr.strip out))).
    lia.
Qed.

(** X8.  A run that answers 200 made no callback attempt when the request's
    [evaluation_url] is falsy - missing, [null], empty, zero or [false] -
    and between one and five attempts when it is truthy. *)
Theorem attempts_follow_evaluation_url (cfg : Config) (w : World)
  (kvs : list (string * JSON)) (b : JSON) :
  snd (handle_request cfg w (Some (JObj kvs))) = Response 200 b ->
  let url := field kvs "evaluation_url" (JStr "") in
  let n := attempts (fst (handle_request cfg w (Some (JObj kvs)))) in
  (Py.truthy url = false -> n = 0%nat) /\
  (Py.truthy url = true -> (1 <= n <= 5)%nat).
Proof.
  intros H200 url n. subst n. revert H200.
  destruct (handle_request_cases cfg w (Some (JObj kvs)))
    as [[Hb _] | [(d & _ & _ & H) | [(kvs' & _ & _ & H) | [(kvs' & e & _ & _ & _ & H) |
        (kvs' & e0 & t0 & r & Hb & _ & _ & _ & _ & H)]]]];
    try discriminate Hb; rewrite H; cbn [snd]; try discriminate.
  injection Hb as <-. rewrite fst_finish.
  destruct (deploy_cases cfg w (fields_of kvs e0 t0 r))
    as [(k & o & Hstop & Hd) | (out & _ & _ & Hd)]; rewrite Hd; cbn [finish fst snd].
  - destruct Hstop as [[_ ->] | [[_ [e ->]] | [[_ ->] | [_ (c & _ & _ & ->)]]]];
      discriminate.
  - intros _. unfold attempts.
    rewrite filter_app, (proj1 (whole_pipeline_quiet cfg w (fields_of kvs e0 t0 r))). cbn [app].
    destruct (notify_attempts w url (payload_of cfg (fields_of kvs e0 t0 r)
                                       (PyStr.strip out))) as [Hoff Hon].
    split.
    + intros Hu. cbn [evaluation_url fields_of]. fold url. now rewrite (Hoff Hu).
    + intros Hu. exact (Hon Hu).
Qed.

Lemma attempts_follow_evaluation_url_witness :
  attempts (fst (handle_request Sample.cfg (Sample.world Sample.always_500)
                   (Some (JObj Sample2.request_null_callback)))) = 0%nat.
Proof.
  apply (proj1 (attempts_follow_evaluation_url Sample.cfg
                  (Sample.world Sample.always_500) Sample2.request_null_callback
                  Sample.payload eq_refl)).
  reflexivity.
Defined.

(** ** Failures the handler does not catch *)

(** X9.  A failure of the directory creation or of one of the three file
    writes is not turned into a response: the handler leaves with the
    exception of the failing call, which is the last event of the run; the
    files written before it stay, and no command and no callback attempt
    follows.  The exception of the directory creation is [ValueError] when
    the path holds a NUL character and [OSError] otherwise; the one of a
    file write, below a directory that was created, is [OSError]. *)
Theorem materialisation_failure_is_unhandled (cfg : Config) (w : World)
  (kvs : list (string * JSON)) (e0 t0 : string) (r : Z) :
  authenticated cfg kvs ->
  request_email kvs = JStr e0 ->
  request_task w kvs = JStr t0 ->
  Py.int (request_round kvs) = Ok r ->
  let f := fields_of kvs e0 t0 r in
  let files := project_files cfg f (generated_code w) in
  (PyStr.has_nul (repo_path_of cfg f) = true ->
   handle_request cfg w (Some (JObj kvs)) =
   ([EMakedirs (repo_path_of cfg f)], Unhandled ValueError)) /\
  (PyStr.has_nul (repo_path_of cfg f) = false ->
   mkdir w (repo_path_of cfg f) = false ->
   handle_request cfg w (Some (JObj kvs)) =
   ([EMakedirs (repo_path_of cfg f)], Unhandled OSError)) /\
  (forall (k : nat) (path : string) (content : text),
      makedirs_ok w (repo_path_of cfg f) = true ->
      generation_error w = None ->
      nth_error files k = Some (path, content) ->
      write_ok w path = false ->
      (forall j p c, (j < k)%nat -> nth_error files j = Some (p, c) ->
                     write_ok w p = true) ->
      handle_request cfg w (Some (JObj kvs)) =
      (firstn (4 + k) (materialise_events cfg f (generated_code w)),
       Unhandled OSError)).
Proof.
  intros Ha He Ht Hr f files.
  rewrite (handle_request_deploys _ _ _ _ _ _ Ha He Ht Hr). fold f.
  split; [| split].
  - intros Hnul. unfold deploy, makedirs, makedirs_ok, path_error.
    rewrite bind_emit, Hnul. reflexivity.
  - intros Hnul Hdir. unfold deploy, makedirs, makedirs_ok, path_error.
    rewrite bind_emit, Hnul, Hdir. reflexivity.
  - intros k path content Hdir Hgen Hk Hfail Hbefore.
    assert (Hchat : exists c, chat w = ChatContent (Some c)).
    { unfold generation_error in Hgen.
      destruct (chat w) as [[c|]|msg]; try discriminate. eauto. }
    destruct Hchat as [c Hchat].
    pose proof (write_error_in_project w (repo_path_of cfg f) "index.html" Hdir eq_refl)
      as Hindex.
    pose proof (write_error_in_project w (repo_path_of cfg f) "README.md" Hdir eq_refl)
      as Hreadme.
    pose proof (write_error_in_project w (repo_path_of cfg f) "LICENSE" Hdir eq_refl)
      as Hlicense.
    subst files. unfold generated_code in *. rewrite Hchat in *.
    unfold deploy, makedirs, generate_app_from_brief, write_files, write_file,
      materialise_events.
    rewrite bind_emit, Hdir, Hchat.
    cbn [bind ret catch emit fst snd app map].
    rewrite Hindex, Hreadme, Hlicense.
    unfold project_files in *.
    destruct k as [|[|[|k]]]; cbn [nth_error] in Hk; try (destruct k; discriminate Hk).
    + assert (Hp : PyStr.path_join (repo_path_of cfg f) "index.html" = path)
        by now injection Hk.
      rewrite Hp, Hfail. reflexivity.
    + assert (Hp : PyStr.path_join (repo_path_of cfg f) "README.md" = path)
        by now injection Hk.
      rewrite (Hbefore 0%nat (PyStr.path_join (repo_path_of cfg f) "index.html")
                 [Lit (PyStr.strip c)] ltac:(lia) eq_refl).
      rewrite Hp, Hfail. reflexivity.
    + assert (Hp : PyStr.path_join (repo_path_of cfg f) "LICENSE" = path)
        by now injection Hk.
      rewrite (Hbefore 0%nat (PyStr.path_join (repo_path_of cfg f) "index.html")
                 [Lit (PyStr.strip c)] ltac:(lia) eq_refl).
      rewrite (Hbefore 1%nat (PyStr.path_join (repo_path_of cfg f) "README.md")
                 (readme f) ltac:(lia) eq_refl).
      rewrite Hp, Hfail. reflexivity.
Qed.

Lemma materialisation_failure_is_unhandled_witness :
  handle_request Sample.cfg Sample2.world_readme_fails (Some (JObj Sample.request)) =
  ([EMakedirs "./workspace/quiz-app-1";
    EPrint "🤖 Generating code for: Quiz App";
    EChat "gpt-5" "You are a skilled web app generator."
      (prompt (JStr "a quiz app")) 1500;
    EWrite "./workspace/quiz-app-1/index.html" [Lit "<html>..</html>"];
    EWrite "./workspace/quiz-app-1/README.md"
      (readme (fields_of Sample.request "student@example.com" "Quiz App" 1))],
   Unhandled OSError).
Proof.
  apply (proj2 (proj2 (materialisation_failure_is_unhandled
                  Sample.cfg Sample2.world_readme_fails Sample.request
                  "student@example.com" "Quiz App" 1
                  eq_refl eq_refl eq_refl eq_refl))
               1%nat "./workspace/quiz-app-1/README.md"
               (readme (fields_of Sample.request "student@example.com" "Quiz App" 1))).
  - reflexivity.
  - reflexivity.
  - reflexivity.
  - reflexivity.
  - intros j p c Hj Hjp. destruct j as [|j]; [| lia].
    injection Hjp as <- _. reflexivity.
Defined.

(** A NUL in the task stops the run at the creation of the directory. *)
Example nul_task_example :
  handle_request Sample.cfg (Sample.world Sample.always_500)
    (Some (JObj Sample2.request_nul_task)) =
  ([EMakedirs ("./workspace/" ++ String PyStr.nul "quiz-1")], Unhandled ValueError).
Proof. reflexivity. Qed.

(** X10.  An authenticated request whose email or task is present and is
    not a string - [null], a number, a list - makes the handler leave with an
    [AttributeError] nobody catches, before any side effect. *)
Theorem non_string_email_or_task_is_unhandled (cfg : Config) (w : World)
  (kvs : list (string * JSON)) :
  authenticated cfg kvs ->
  (forall s, request_email kvs <> JStr s) \/ (forall s, request_task w kvs <> JStr s) ->
  handle_request cfg w (Some (JObj kvs)) = ([], Unhandled AttributeError).
Proof.
  intros Ha Hbad.
  rewrite (handle_request_authenticated _ _ _ Ha).
  unfold extract_fields. rewrite !get_obj.
  unfold request_email, request_task in Hbad.
  destruct (field kvs "email" (JStr "student@example.com")) as [| | | |e0| |];
    try reflexivity.
  destruct (field kvs "task" (JStr (default_task w))) as [| | | |t0| |];
    try reflexivity.
  destruct Hbad as [Hbad | Hbad]; [now contradiction (Hbad e0) | now contradiction (Hbad t0)].
Qed.

Lemma non_string_email_or_task_is_unhandled_witness :
  handle_request Sample.cfg (Sample.world Sample.always_500)
    (Some (JObj Sample2.request_email_number)) = ([], Unhandled AttributeError).
Proof.
  apply (non_string_email_or_task_is_unhandled Sample.cfg
           (Sample.world Sample.always_500) Sample2.request_email_number eq_refl).
  left. intros s. discriminate.
Defined.

(** ** The order of the pipeline *)

(** X11.  Whatever fails, the events of a run follow one fixed order:
    directory, log line, one chat call, the three files, the nine commands.
    A run is a beginning of that sequence, nothing skipped, ended by the
    failure of its last call - the exception of the directory creation, the
    500 of the generator, the [OSError] of a file, the exception of a
    command -, or it is the whole sequence followed by the notification;
    only then is the response built from the payload, and returned with
    status 200 when the payload can be serialised. *)
Theorem pipeline_runs_in_order (cfg : Config) (w : World)
  (kvs : list (string * JSON)) (e0 t0 : string) (r : Z) :
  authenticated cfg kvs ->
  request_email kvs = JStr e0 ->
  request_task w kvs = JStr t0 ->
  Py.int (request_round kvs) = Ok r ->
  let f := fields_of kvs e0 t0 r in
  let run := handle_request cfg w (Some (JObj kvs)) in
  length (pipeline_events cfg w f) = 15%nat /\
  ((exists n, (1 <= n <= 15)%nat /\
              fst run = firstn n (pipeline_events cfg w f) /\
              stops_at cfg w f n (snd run)) \/
   (exists out,
       publishes cfg w f out /\
       fst run = (pipeline_events cfg w f ++
                  fst (notify_evaluation_server w (evaluation_url f)
                         (payload_of cfg f (PyStr.strip out))))%list /\
       snd run = final_outcome (payload_of cfg f (PyStr.strip out)))).
Proof.
  intros Ha He Ht Hr f run. subst run.
  rewrite (handle_request_deploys _ _ _ _ _ _ Ha He Ht Hr). fold f.
  split; [reflexivity|].
  destruct (deploy_cases cfg w f) as [(n & o & Hstop & Hd) | (out & _ & Hpub & Hd)];
    rewrite Hd.
  - left. exists n. cbn [finish fst snd]. split; [| split; [reflexivity | exact Hstop]].
    destruct Hstop as [[-> _] | [[-> _] | [[Hn _] | [Hn _]]]]; lia.
  - right. exists out. rewrite finish_final. cbn [fst snd].
    split; [exact Hpub | split; reflexivity].
Qed.

Lemma pipeline_runs_in_order_witness :
  let f := fields_of Sample.request "student@example.com" "Quiz App" 1 in
  let run := handle_request Sample.cfg Sample.world_name_taken
               (Some (JObj Sample.request)) in
  length (pipeline_events Sample.cfg Sample.world_name_taken f) = 15%nat /\
  ((exists n, (1 <= n <= 15)%nat /\
              fst run = firstn n (pipeline_events Sample.cfg Sample.world_name_taken f) /\
              stops_at Sample.cfg Sample.world_name_taken f n (snd run)) \/
   (exists out,
       publishes Sample.cfg Sample.world_name_taken f out /\
       fst run = (pipeline_events Sample.cfg Sample.world_name_taken f ++
                  fst (notify_evaluation_server Sample.world_name_taken
                         (evaluation_url f)
                         (payload_of Sample.cfg f (PyStr.strip out))))%list /\
       snd run = final_outcome (payload_of Sample.cfg f (PyStr.strip out)))).
Proof.
  apply (pipeline_runs_in_order Sample.cfg Sample.world_name_taken
           Sample.request "student@example.com" "Quiz App" 1
           eq_refl eq_refl eq_refl eq_refl).
Defined.

(** ** The generator *)

(** X12.  [generate_app_from_brief] makes exactly one chat call, whatever
    the outcome, and the code it returns neither begins nor ends with white
    space: stripping it again on either side changes nothing. *)
Theorem generated_code_is_stripped (w : World) (brief : JSON) :
  fst (generate_app_from_brief w brief) =
    [EChat "gpt-5" "You are a skilled web app generator." (prompt brief) 1500] /\
  forall code,
    snd (generate_app_from_brief w brief) = inl code ->
    PyStr.lstrip code = code /\ PyStr.rstrip code = code.
Proof.
  unfold generate_app_from_brief. rewrite bind_emit.
  destruct (chat w) as [[content|]|msg]; cbn [fst snd ret leave];
    (split; [reflexivity |]); intros code [= <-].
  apply strip_trimmed.
Qed.

Lemma generated_code_is_stripped_witness :
  PyStr.lstrip "<html>..</html>" = "<html>..</html>" /\
  PyStr.rstrip "<html>..</html>" = "<html>..</html>".
Proof.
  apply (proj2 (generated_code_is_stripped (Sample.world Sample.always_500)
                  (JStr "a quiz app")) "<html>..</html>").
  reflexivity.
Defined.

(** X13.  A completion made of white space only is not an error: the
    generator returns the empty text, and the run goes on to write an empty
    [index.html], publish it and build the response, returned with status
    200 when the nonce can be serialised. *)
Theorem blank_completion_is_published (cfg : Config) (w : World)
  (kvs : list (string * JSON)) (e0 t0 : string) (r : Z) (content out : string) :
  authenticated cfg kvs ->
  request_email kvs = JStr e0 ->
  request_task w kvs = JStr t0 ->
  Py.int (request_round kvs) = Ok r ->
  all_chars PyStr.is_space content = true ->
  materialises cfg w (fields_of kvs e0 t0 r) content ->
  publishes cfg w (fields_of kvs e0 t0 r) out ->
  let f := fields_of kvs e0 t0 r in
  let run := handle_request cfg w (Some (JObj kvs)) in
  generation_error w = None /\
  snd (generate_app_from_brief w (brief f)) = inl "" /\
  In (EWrite (PyStr.path_join (repo_path_of cfg f) "index.html") [Lit ""]) (fst run) /\
  In (ERun ["gh"; "repo"; "create"; repo_name_of f;
            "--public"; "--source"; repo_path_of cfg f; "--push"; "--confirm"] None)
     (fst run) /\
  snd run = final_outcome (payload_of cfg f (PyStr.strip out)) /\
  (Py.serialisable (field kvs "nonce" JNull) = true ->
   snd run = Response 200 (payload_of cfg f (PyStr.strip out))).
Proof.
  intros Ha He Ht Hr Hblank Hmat Hpub f run. subst run.
  rewrite (handle_request_succeeds _ _ _ _ _ _ _ _ Ha He Ht Hr Hmat Hpub).
  rewrite (strip_all_space content Hblank). fold f.
  destruct Hmat as (_ & Hchat & _).
  split; [unfold generation_error; now rewrite Hchat |].
  split.
  { unfold generate_app_from_brief. rewrite bind_emit, Hchat. cbn [fst snd ret].
    now rewrite (strip_all_space content Hblank). }
  cbn [fst snd].
  split; [apply in_or_app; left; cbn; tauto |].
  split; [apply in_or_app; right; apply in_or_app; left; cbn; tauto |].
  split; [reflexivity |].
  intros Hfinite. unfold final_outcome.
  rewrite (serialisable_payload cfg f (PyStr.strip out)).
  cbn [nonce f fields_of]. now rewrite Hfinite.
Qed.

Lemma blank_completion_is_published_witness :
  In (EWrite "./workspace/quiz-app-1/index.html" [Lit ""])
     (fst (handle_request Sample.cfg Sample2.world_blank_completion
             (Some (JObj Sample.request)))).
Proof.
  apply (proj1 (proj2 (proj2 (blank_completion_is_published
    Sample.cfg Sample2.world_blank_completion Sample.request
    "student@example.com" "Quiz App" 1 (" " ++ nl ++ "  ") ("abc123" ++ nl)
    eq_refl eq_refl eq_refl eq_refl eq_refl
    (conj eq_refl (conj eq_refl eq_refl)) (conj eq_refl eq_refl))))).
Defined.

(** ** What the extracted fields can hold *)

(** X14.  The email and the task the handler works with hold no angle
    bracket and no quote of either kind, whatever the request sent: they are
    what is written to the readme, to the commit message and to the
    response. *)
Theorem extracted_text_has_no_markup (w : World) (data : JSON)
  (tr : list Event) (f : Fields) :
  extract_fields w data = (tr, inl f) ->
  forall s, s = email f \/ s = task f ->
    PyStr.contains "<" s = false /\
    PyStr.contains ">" s = false /\
    PyStr.contains PyStr.dquote s = false /\
    PyStr.contains "'" s = false.
Proof.
  intros Hex s Hs.
  apply extract_fields_inv in Hex
    as (kvs & e0 & t0 & r & _ & _ & _ & _ & -> & _).
  destruct Hs as [-> | ->]; apply html_escape_no_markup.
Qed.

Lemma extracted_text_has_no_markup_witness :
  PyStr.contains "<" "a&lt;b&gt;@example.com" = false /\
  PyStr.contains ">" "a&lt;b&gt;@example.com" = false /\
  PyStr.contains PyStr.dquote "a&lt;b&gt;@example.com" = false /\
  PyStr.contains "'" "a&lt;b&gt;@example.com" = false.
Proof.
  apply (extracted_text_has_no_markup (Sample.world Sample.always_500)
           (JObj Sample.request_markup) []
           (fields_of Sample.request_markup "a<b>@example.com" "R&D" 2) eq_refl).
  left. reflexivity.
Defined.

(** X15.  The project identity never holds a space nor an ASCII capital,
    whatever the task and the round. *)
Theorem repo_name_is_normalised (f : Fields) :
  PyStr.contains " " (repo_name_of f) = false /\
  has_upper (repo_name_of f) = false.
Proof.
  unfold repo_name_of. split.
  - rewrite contains_space_lower. now apply contains_replace_gone.
  - apply has_upper_lower.
Qed.



(** X17.  A round sent as the decimal text of an integer is converted to
    that integer, [int(str(n)) == n], and the request is extracted with it
    as its round; around the text [int()] allows its white space - tab, line
    feed, vertical tab, form feed, carriage return, space -, and the text is
    to stay within the limit on the digits of a converted text. *)
Theorem round_as_text_is_the_number (w : World) (kvs : list (string * JSON))
  (e0 t0 : string) (n : Z) (pre post : string) :
  request_email kvs = JStr e0 ->
  request_task w kvs = JStr t0 ->
  all_chars Py.int_space pre = true ->
  all_chars Py.int_space post = true ->
  Py.digit_count (PyStr.of_int n) <= Py.max_str_digits ->
  Py.assoc "round" kvs = Some (JStr (pre ++ PyStr.of_int n ++ post)) ->
  Py.int (JStr (pre ++ PyStr.of_int n ++ post)) = Py.int (JInt n) /\
  extract_fields w (JObj kvs) = ([], inl (fields_of kvs e0 t0 n)).
Proof.
  intros He Ht Hpre Hpost Hlimit Hround.
  assert (Hint : Py.int (JStr (pre ++ PyStr.of_int n ++ post)) = Ok n).
  { cbn [Py.int]. now rewrite (int_of_string_of_int n pre post Hpre Hpost Hlimit). }
  split; [exact Hint |].
  apply extract_fields_ok; [exact He | exact Ht |].
  unfold request_round, field. now rewrite Hround.
Qed.

Lemma round_as_text_is_the_number_witness :
  extract_fields (Sample.world Sample.always_500) (JObj Sample2.request_round_text) =
  ([], inl (fields_of Sample2.request_round_text "student@example.com" "Quiz App" (-12))).
Proof.
  refine (proj2 (round_as_text_is_the_number
    (Sample.world Sample.always_500) Sample2.request_round_text
    "student@example.com" "Quiz App" (-12) "" ""
    eq_refl eq_refl eq_refl eq_refl _ eq_refl)).
  vm_compute. discriminate.
Defined.

Lemma lower_append (a b : string) :
  PyStr.lower (a ++ b) = PyStr.lower a ++ PyStr.lower b.
Proof. induction a as [|c a IH]; simpl; [reflexivity | now rewrite IH]. Qed.

Lemma replace_append (old : ascii) (new a b : string) :
  PyStr.replace old new (a ++ b) =
  PyStr.replace old new a ++ PyStr.replace old new b.
Proof.
  induction a as [|c a IH]; simpl; [reflexivity|].
  destruct (Ascii.eqb c old); simpl; now rewrite IH, ?append_assoc.
Qed.

(** X18.  The identity does not tell apart tasks that differ only by the
    case of their letters or by spaces against hyphens: two requests of the
    same round whose tasks are equal once lowercased and hyphenated get the
    same identity and the same project directory. *)
Theorem identity_collides_on_case_and_spaces (cfg : Config) (f g : Fields) :
  round_ f = round_ g ->
  PyStr.lower (PyStr.replace " " "-" (task f)) =
  PyStr.lower (PyStr.replace " " "-" (task g)) ->
  repo_name_of f = repo_name_of g /\ repo_path_of cfg f = repo_path_of cfg g.
Proof.
  intros Hround Htask.
  assert (Hname : repo_name_of f = repo_name_of g).
  { unfold repo_name_of.
    rewrite !replace_append, !lower_append, Htask, Hround. reflexivity. }
  split; [exact Hname |]. unfold repo_path_of. now rewrite Hname.
Qed.

Lemma identity_collides_on_case_and_spaces_witness :
  repo_name_of (fields_of Sample.request "student@example.com" "Quiz App" 1) =
  repo_name_of (fields_of Sample.request "student@example.com" "quiz-APP" 1).
Proof.
  apply (proj1 (identity_collides_on_case_and_spaces Sample.cfg
                  (fields_of Sample.request "student@example.com" "Quiz App" 1)
                  (fields_of Sample.request "student@example.com" "quiz-APP" 1)
                  eq_refl eq_refl)).
Defined.
